(** * MTA Bus Time sensors: a shallow embedding of the fetch / normalise / ETA
      pipeline of [sensor.py] (single target) and
      [custom_components/mta_bus_time/sensor.py] (several targets behind one
      throttled cache), with the properties of the specification. *)

From Stdlib Require Import ZArith List String Ascii Lia Bool DecimalString QArith.
From stdpp Require Import gmap strings.

Local Open Scope Z_scope.
#[local] Set Warnings "-register-all".

(** ** Python values and exceptions *)

(** What [response.json()] returns, and every value the sensors store: [None]
    is [JNull].  A decoded JSON object is a Python dict, so its keys are
    distinct; [JObj] lists the items in insertion order and a lookup takes the
    first item with the key. *)
Inductive json : Type :=
| JNull
| JBool (b : bool)
| JInt (z : Z)
| JFloat (q : Q)
| JStr (s : string)
| JArr (items : list json)
| JObj (items : list (string * json)).

(** The exceptions the two [update] methods can meet; all of them are
    subclasses of [Exception]. *)
Inductive exn : Type :=
| AttributeError | TypeError | KeyError | IndexError | ValueError
| RequestException.

(** A computation that returns or raises. *)
Inductive py (A : Type) : Type :=
| Returns (a : A)
| Raised (e : exn).
Arguments Returns {A} a.
Arguments Raised {A} e.

#[global] Instance py_ret : MRet py := @Returns.
#[global] Instance py_bind : MBind py := fun A B k m =>
  match m with
  | Returns a => k a
  | Raised e => Raised e
  end.

(** Python truthiness: [None], [False], zero, and the empty string, list and
    dict are false. *)
Definition truthy (v : json) : bool :=
  match v with
  | JNull => false
  | JBool b => b
  | JInt z => negb (z =? 0)
  | JFloat q => negb (Qeq_bool q 0)
  | JStr s => negb (String.eqb s EmptyString)
  | JArr l => match l with [] => false | _ => true end
  | JObj l => match l with [] => false | _ => true end
  end.

Fixpoint assoc (k : string) (items : list (string * json)) : option json :=
  match items with
  | [] => None
  | (k', v) :: rest => if String.eqb k k' then Some v else assoc k rest
  end.

(** [d.get(k, default)] on the items of a dict. *)
Definition dict_get (items : list (string * json)) (k : string) (d : json)
  : json :=
  match assoc k items with Some v => v | None => d end.

(** [o.get(k, d)]: only a dict has the method. *)
Definition get_default (o : json) (k : string) (d : json) : py json :=
  match o with
  | JObj items => Returns (dict_get items k d)
  | _ => Raised AttributeError
  end.

(** [o.get(k)], the default being [None]. *)
Definition get (o : json) (k : string) : py json := get_default o k JNull.

(** [o[0]].  The keys of a decoded object are strings, so the integer key is
    never found in a dict; a non-empty string yields its first character. *)
Definition item0 (o : json) : py json :=
  match o with
  | JArr (x :: _) => Returns x
  | JArr [] => Raised IndexError
  | JObj _ => Raised KeyError
  | JStr (String c _) => Returns (JStr (String c EmptyString))
  | JStr EmptyString => Raised IndexError
  | _ => Raised TypeError
  end.

Fixpoint chars (s : string) : list json :=
  match s with
  | EmptyString => []
  | String c rest => JStr (String c EmptyString) :: chars rest
  end.

(** The sequence a [for] loop runs over: the items of a list, the keys of a
    dict, the characters of a string; anything else is not iterable. *)
Definition iterate (o : json) : py (list json) :=
  match o with
  | JArr l => Returns l
  | JObj items => Returns (map (fun kv => JStr (fst kv)) items)
  | JStr s => Returns (chars s)
  | _ => Raised TypeError
  end.

(** [v == s] and [v != s] against a string literal. *)
Definition is_str (v : json) (s : string) : bool :=
  match v with
  | JStr s' => String.eqb s' s
  | _ => false
  end.

(** [str(n)] for an integer. *)
Definition str (n : Z) : string := NilZero.string_of_int (Z.to_int n).

(** [d[k] = v] on a dict: the key keeps its place when present, and is
    added at the end otherwise. *)
Fixpoint setitem (k : string) (v : json) (items : list (string * json))
  : list (string * json) :=
  match items with
  | [] => [(k, v)]
  | (k', v') :: rest =>
      if String.eqb k k' then (k, v) :: rest else (k', v') :: setitem k v rest
  end.

(** ** Dates and times *)

Module DateTime.

(** A [timedelta] in microseconds. *)
Definition timedelta := Z.

Definition seconds (n : Z) : timedelta := n * 1000000.

(** A [datetime.datetime]; [tzinfo] is the fixed UTC offset of an aware
    value and [None] for a naive one. *)
Record datetime : Type := mkDT {
  year : Z; month : Z; day : Z;
  hour : Z; minute : Z; second : Z; microsecond : Z;
  tzinfo : option timedelta
}.

Definition is_leap (y : Z) : bool :=
  (y mod 4 =? 0) && (negb (y mod 100 =? 0) || (y mod 400 =? 0)).

Definition days_in_month (y m : Z) : Z :=
  if (m =? 2) && is_leap y then 29
  else nth (Z.to_nat m) [0; 31; 28; 31; 30; 31; 30; 31; 31; 30; 31; 30; 31] 0.

Definition days_before_year (y : Z) : Z :=
  let y1 := y - 1 in y1 * 365 + y1 / 4 - y1 / 100 + y1 / 400.

Definition days_before_month (y m : Z) : Z :=
  nth (Z.to_nat m) [0; 0; 31; 59; 90; 120; 151; 181; 212; 243; 273; 304; 334] 0
  + (if (2 <? m) && is_leap y then 1 else 0).

(** Proleptic Gregorian ordinal, 0001-01-01 being day 1. *)
Definition ymd2ord (y m d : Z) : Z :=
  days_before_year y + days_before_month y m + d.

(** What the constructor of [datetime] accepts. *)
Definition valid (dt : datetime) : bool :=
  (1 <=? year dt) && (year dt <=? 9999)
  && (1 <=? month dt) && (month dt <=? 12)
  && (1 <=? day dt) && (day dt <=? days_in_month (year dt) (month dt))
  && (0 <=? hour dt) && (hour dt <=? 23)
  && (0 <=? minute dt) && (minute dt <=? 59)
  && (0 <=? second dt) && (second dt <=? 59)
  && (0 <=? microsecond dt) && (microsecond dt <=? 999999).

(** Microseconds of the wall-clock reading since the start of day 0. *)
Definition wall (dt : datetime) : Z :=
  seconds (ymd2ord (year dt) (month dt) (day dt) * 86400
           + hour dt * 3600 + minute dt * 60 + second dt)
  + microsecond dt.

(** The host clock: the current UTC reading (on the scale of [wall]) and the
    offset of the host's local time zone. *)
Record clock : Type := mkClock { utc_now : Z; local_offset : timedelta }.

(** [dt - datetime.now(dt.tzinfo)]: [now] yields the current time in the
    zone of [dt], and the naive local time of the host when [dt] is
    naive. *)
Definition minus_now (dt : datetime) (clk : clock) : timedelta :=
  match tzinfo dt with
  | Some off => (wall dt - off) - utc_now clk
  | None => wall dt - (utc_now clk + local_offset clk)
  end.

(** *** [total_seconds() // 60] in binary64

    [total_seconds] divides the microseconds by [10**6] as integers; the
    result is the double nearest to the quotient, ties to even.  A double
    is kept as its integer mantissa and binary exponent.  The values met
    here are far inside the normal range, so there is neither underflow nor
    overflow. *)

Record binary64 : Type := mkDouble { mantissa : Z; exponent : Z }.

(** [n / d] rounded to the nearest integer, ties to even, for [0 < d]. *)
Definition round_half_even (n d : Z) : Z :=
  let q := n / d in
  match 2 * (n mod d) ?= d with
  | Lt => q
  | Gt => q + 1
  | Eq => if Z.even q then q else q + 1
  end.

(** [n / d < 2 ^ l], for positive [n] and [d] and any integer [l]. *)
Definition ratio_below (n d l : Z) : bool :=
  if 0 <=? l then n <? d * 2 ^ l else n * 2 ^ (- l) <? d.

(** The double nearest to [n / d] for positive [n] and [d]: with
    [2 ^ L <= n / d < 2 ^ (L + 1)], the quotient is rounded to a multiple of
    [2 ^ (L - 52)], which leaves 53 significant bits. *)
Definition nearest_double (n d : Z) : binary64 :=
  let l := Z.log2 n - Z.log2 d in
  let L := if ratio_below n d l then l - 1 else l in
  let e := L - 52 in
  mkDouble (if e <? 0 then round_half_even (n * 2 ^ (- e)) d
            else round_half_even n (d * 2 ^ e))
           e.

(** [n / d] on Python integers, for [0 < d]. *)
Definition true_divide (n d : Z) : binary64 :=
  if n =? 0 then mkDouble 0 0
  else if 0 <? n then nearest_double n d
  else let x := nearest_double (- n) d in
       mkDouble (- mantissa x) (exponent x).

(** [delta.total_seconds()] *)
Definition total_seconds (delta : timedelta) : binary64 :=
  true_divide delta (10 ^ 6).

(** [int(x // k)] for a positive integer [k].  Floor division of doubles
    goes through [fmod], which is exact; for the values met here the
    subtraction and the division that follow are exact too, so the result
    is the floor of the quotient of the double by [k]. *)
Definition floordiv (x : binary64) (k : Z) : Z :=
  if 0 <=? exponent x then (mantissa x * 2 ^ exponent x) / k
  else mantissa x / (k * 2 ^ (- exponent x)).

(** [int(delta.total_seconds() // 60)] *)
Definition whole_minutes (delta : timedelta) : Z :=
  floordiv (total_seconds delta) 60.

(** *** [strftime] and [strptime] for the pattern
        ["%B %d, %Y at %I:%M %p"] (C locale) *)

Definition digit (d : Z) : ascii := ascii_of_N (Z.to_N (48 + d)).

Definition digit_val (c : ascii) : option Z :=
  let n := Z.of_N (N_of_ascii c) in
  if (48 <=? n) && (n <=? 57) then Some (n - 48) else None.

Definition pad2 (n : Z) : string :=
  String (digit (n / 10 mod 10)) (String (digit (n mod 10)) EmptyString).

Definition pad4 (n : Z) : string :=
  String (digit (n / 1000 mod 10)) (String (digit (n / 100 mod 10)) (pad2 n)).

(** [%Y] as the C library of the host writes it.  glibc, taken here,
    writes the year without padding; other C libraries pad it to four
    digits.  From the year 1000 on all of them write the same. *)
Definition year_digits (y : Z) : string :=
  if y <? 10 then String (digit y) EmptyString
  else if y <? 100 then pad2 y
  else if y <? 1000 then String (digit (y / 100)) (pad2 y)
  else pad4 y.

Definition month_names : list string :=
  ["January"; "February"; "March"; "April"; "May"; "June"; "July";
   "August"; "September"; "October"; "November"; "December"]%string.

Definition month_name (m : Z) : string :=
  nth (Z.to_nat (m - 1)) month_names EmptyString.

(** [%I]: the hour on the 12-hour clock. *)
Definition hour12 (h : Z) : Z := if h mod 12 =? 0 then 12 else h mod 12.

Definition strftime (dt : datetime) : string :=
  month_name (month dt) +:+ " " +:+ pad2 (day dt) +:+ ", "
  +:+ year_digits (year dt) +:+ " at " +:+ pad2 (hour12 (hour dt)) +:+ ":"
  +:+ pad2 (minute dt) +:+ " " +:+ (if hour dt <? 12 then "AM" else "PM").

Fixpoint strip_prefix (p s : string) : option string :=
  match p with
  | EmptyString => Some s
  | String c p' =>
      match s with
      | String c' s' => if Ascii.eqb c c' then strip_prefix p' s' else None
      | EmptyString => None
      end
  end.

Definition read_digit (s : string) : option (Z * string) :=
  match s with
  | String c s' => d ← digit_val c; Some (d, s')
  | EmptyString => None
  end.

Definition read2 (s : string) : option (Z * string) :=
  '(a, s) ← read_digit s; '(b, s) ← read_digit s; Some (10 * a + b, s).

Definition read4 (s : string) : option (Z * string) :=
  '(a, s) ← read2 s; '(b, s) ← read2 s; Some (100 * a + b, s).

Fixpoint read_month_from (names : list string) (m : Z) (s : string)
  : option (Z * string) :=
  match names with
  | [] => None
  | n :: rest =>
      match strip_prefix n s with
      | Some s' => Some (m, s')
      | None => read_month_from rest (m + 1) s
      end
  end.

Definition read_month : string -> option (Z * string) :=
  read_month_from month_names 1.

(** [true] for PM; the marker ends the string. *)
Definition read_ampm (s : string) : option bool :=
  if String.eqb s "AM" then Some false
  else if String.eqb s "PM" then Some true else None.

(** The hour of the day from [%I] and [%p]. *)
Definition hour24 (pm : bool) (h : Z) : Z :=
  if pm then (if h =? 12 then 12 else h + 12) else (if h =? 12 then 0 else h).

(** [datetime.strptime(s, "%B %d, %Y at %I:%M %p")] on the layout that
    [strftime] writes; [None] stands for [ValueError].  [%Y] wants four
    digits, so a year that was written with fewer is not read back.
    (Python also reads unpadded days, hours and minutes, any letter case
    and runs of white space; the sensors only pass strings that [strftime]
    wrote.)  The result is naive and has no seconds. *)
Definition strptime (s : string) : option datetime :=
  '(mo, s) ← read_month s;
  s ← strip_prefix " " s;
  '(d, s) ← read2 s;
  s ← strip_prefix ", " s;
  '(y, s) ← read4 s;
  s ← strip_prefix " at " s;
  '(h, s) ← read2 s;
  s ← strip_prefix ":" s;
  '(mi, s) ← read2 s;
  s ← strip_prefix " " s;
  pm ← read_ampm s;
  if (1 <=? d) && (d <=? 31) && (1 <=? h) && (h <=? 12) && (mi <=? 59) then
    let dt := mkDT y mo d (hour24 pm h) mi 0 0 None in
    if valid dt then Some dt else None
  else None.

(** The value [strptime] gives back for what [strftime] wrote of [dt]. *)
Definition naive_minute (dt : datetime) : datetime :=
  mkDT (year dt) (month dt) (day dt) (hour dt) (minute dt) 0 0 None.

(** *** A parser of ISO-8601 date-times

    [datetime.fromisoformat] and [dateutil.parser.parse] are library code;
    the sensors are stated over any parser.  [parse_iso] is the reading that
    both give to the layout [YYYY-MM-DDTHH:MM:SS] followed by an optional
    [+HH:MM] or [-HH:MM], and is the parser of the examples. *)

Definition read_offset (s : string) : option (option timedelta) :=
  match s with
  | EmptyString => Some None
  | String c s =>
      sign ← (if Ascii.eqb c "+" then Some 1
              else if Ascii.eqb c "-" then Some (-1) else None);
      '(h, s) ← read2 s;
      s ← strip_prefix ":" s;
      '(m, s) ← read2 s;
      if String.eqb s EmptyString && (h <=? 23) && (m <=? 59)
      then Some (Some (sign * seconds (h * 3600 + m * 60)))
      else None
  end.

Definition parse_iso (s : string) : option datetime :=
  '(y, s) ← read4 s;
  s ← strip_prefix "-" s;
  '(mo, s) ← read2 s;
  s ← strip_prefix "-" s;
  '(d, s) ← read2 s;
  s ← strip_prefix "T" s;
  '(h, s) ← read2 s;
  s ← strip_prefix ":" s;
  '(mi, s) ← read2 s;
  s ← strip_prefix ":" s;
  '(sec, s) ← read2 s;
  tz ← read_offset s;
  let dt := mkDT y mo d h mi sec 0 tz in
  if valid dt then Some dt else None.

End DateTime.

Import DateTime.

(** ** The transport *)

(** What [requests.get] and then [response.json()] do: the request raises, or
    a response comes back with a status code and a body, [None] when the body
    is not JSON ([response.json()] raises [ValueError]). *)
Inductive http_outcome : Type :=
| Raises (e : exn)
| Responds (status_code : Z) (body : option json).

Definition response_json (body : option json) : py json :=
  match body with
  | Some data => Returns data
  | None => Raised ValueError
  end.

(** ** Arrival Normalizer and ETA Calculator, common to both sensors *)

(** A normalised arrival: the items of the dict built for one visit. *)
Definition arrival : Type := list (string * json).

Definition empty_dict : json := JObj [].
Definition Unavailable : json := JStr "Unavailable".

Section Normalizer.

(** [datetime.fromisoformat] in [sensor.py], [dateutil.parser.parse] in the
    component; [None] when the parser raises. *)
Variable parse_time : string -> option datetime.

(** [if raw: try: dt = parse(raw) except Exception: ...], the result
    starting as [None].  A truthy value that is not a string makes either
    parser raise [TypeError], which the handler swallows. *)
Definition parse_field (raw : json) : option datetime :=
  if truthy raw then
    match raw with
    | JStr s => parse_time s
    | _ => None
    end
  else None.

(** [dt.strftime("%B %d, %Y at %I:%M %p") if dt else "Unavailable"] *)
Definition formatted (dt : option datetime) : json :=
  match dt with
  | Some d => JStr (strftime d)
  | None => Unavailable
  end.

(** The body of the loop over the visits: the arrival it appends, and the
    value it leaves in [expected_dt]. *)
Definition normalize (visit : json) : py (arrival * option datetime) :=
  journey ← get_default visit "MonitoredVehicleJourney" empty_dict;
  call ← get_default journey "MonitoredCall" empty_dict;
  extensions ← get_default call "Extensions" empty_dict;
  distances ← get_default extensions "Distances" empty_dict;
  capacities ← get_default extensions "Capacities" empty_dict;
  raw_aat ← get call "AimedArrivalTime";
  raw_eat ← get call "ExpectedArrivalTime";
  let aimed_dt := parse_field raw_aat in
  let expected_dt := parse_field raw_eat in
  let aimed_formatted := formatted aimed_dt in
  let expected_formatted := formatted expected_dt in
  route ← get journey "PublishedLineName";
  destination ← get journey "DestinationName";
  location ← get journey "VehicleLocation";
  progress ← get journey "ProgressRate";
  presentable ← get distances "PresentableDistance";
  from_call ← get distances "DistanceFromCall";
  count ← get capacities "EstimatedPassengerCount";
  capacity ← get capacities "EstimatedPassengerCapacity";
  stop_name ← get call "StopPointName";
  Returns ([ ("Route", route);
         ("Destination", destination);
         ("Current Vehicle Location", location);
         ("Progress Rate", progress);
         ("Aimed Arrival Time", aimed_formatted);
         ("Estimated Arrival Time", expected_formatted);
         ("Distance", if truthy presentable then presentable else Unavailable);
         ("Distance (m)", from_call);
         ("Passenger Count", count);
         ("Passenger Capacity", capacity);
         ("Stop Name", stop_name) ]%string,
       expected_dt).

(** [for visit in visits: ...; arrivals.append(arrival)].  [expected_dt] is
    a local of [update], assigned in every round and still bound after the
    loop; it is read afterwards only when a round has run, so its being
    unbound before the first round is rendered by the caller's initial
    value. *)
Fixpoint visit_loop (visits : list json) (arrivals : list arrival)
    (expected_dt : option datetime) : py (list arrival * option datetime) :=
  match visits with
  | [] => Returns (arrivals, expected_dt)
  | visit :: rest =>
      '(arrival, expected_dt) ← normalize visit;
      visit_loop rest (arrivals ++ [arrival]) expected_dt
  end.

(** From the decoded body to the visits of the first delivery; [None] when
    the delivery is falsy. *)
Definition delivery_visits (data : json) : py (option (list json)) :=
  siri ← get_default data "Siri" empty_dict;
  service ← get_default siri "ServiceDelivery" empty_dict;
  delivery ← get_default service "StopMonitoringDelivery" (JArr []);
  if truthy delivery then
    first ← item0 delivery;
    visits ← get_default first "MonitoredStopVisit" (JArr []);
    vs ← iterate visits;
    Returns (Some vs)
  else Returns None.

End Normalizer.

(** [minutes = int(delta.total_seconds() // 60)] and the string made of it. *)
Definition eta_of_delta (delta : timedelta) : string :=
  let minutes := whole_minutes delta in
  if 0 <=? minutes then "in " +:+ str minutes +:+ " minutes" else "Departed".

(** ** [sensor.py]: one stop, fetched on every tick *)

Module Single.

Record MTABusSensor : Type := mkSensor {
  _api_key : string;
  _operator_ref : string;
  _monitoring_ref : string;
  _line_ref : string;
  _state : json;
  _attributes : list (string * json)
}.

(** [MTABusSensor.__init__] *)
Definition init (api_key operator_ref monitoring_ref line_ref : string)
  : MTABusSensor :=
  mkSensor api_key operator_ref monitoring_ref line_ref JNull [].

(** [setup_platform] of [sensor.py]: the entities handed to
    [add_entities]. *)
Definition setup_platform (api_key operator_ref monitoring_ref line_ref : string)
  : list MTABusSensor :=
  [init api_key operator_ref monitoring_ref line_ref].

Definition set_state (self : MTABusSensor) (v : json) : MTABusSensor :=
  mkSensor (_api_key self) (_operator_ref self) (_monitoring_ref self)
           (_line_ref self) v (_attributes self).

Definition set_both (self : MTABusSensor) (v : json)
    (attrs : list (string * json)) : MTABusSensor :=
  mkSensor (_api_key self) (_operator_ref self) (_monitoring_ref self)
           (_line_ref self) v attrs.

Definition url (self : MTABusSensor) : string :=
  "https://bustime.mta.info/api/siri/stop-monitoring.json?"
  +:+ "key=" +:+ _api_key self +:+ "&OperatorRef=" +:+ _operator_ref self
  +:+ "&MonitoringRef=" +:+ _monitoring_ref self
  +:+ "&LineRef=" +:+ _line_ref self.

(** The ETA string of [update]; [expected_dt] is whatever the variable of
    that name holds when the loop is over. *)
Definition eta_in_minutes (expected_dt : option datetime) (clk : clock)
  : string :=
  match expected_dt with
  | Some dt => eta_of_delta (minus_now dt clk)
  | None => "N/A"
  end.

Section Update.

Variable parse_time : string -> option datetime.

(** The body of the [try] of [update]. *)
Definition update_try (out : http_outcome) (clk : clock)
    (self : MTABusSensor) : py MTABusSensor :=
  match out with
  | Raises e => Raised e
  | Responds status_code body =>
      if negb (status_code =? 200) then
        Returns (set_state self (JStr "Error"))
      else
        data ← response_json body;
        delivery ← delivery_visits data;
        match delivery with
        | Some visits =>
            '(arrivals, expected_dt) ← visit_loop parse_time visits [] None;
            match arrivals with
            | first_arrival :: _ =>
                let state :=
                  dict_get first_arrival "Estimated Arrival Time" JNull in
                let eta := eta_in_minutes expected_dt clk in
                Returns (set_both self state
                  (setitem "ETA in minutes" (JStr eta)
                     [("Arrivals"%string, JArr (map JObj arrivals))]))
            | [] =>
                Returns (set_both self (JStr "No arrivals")
                           [("Arrivals"%string, JArr [])])
            end
        | None =>
            Returns (set_both self (JStr "No data")
                       [("Arrivals"%string, JArr [])])
        end
  end.

(** [MTABusSensor.update]: [net] answers the request for a URL.  Nothing in
    the [try] raises once [_state] or [_attributes] has been assigned, so
    the handler starts from the sensor as it was. *)
Definition update (net : string -> http_outcome) (clk : clock)
    (self : MTABusSensor) : MTABusSensor :=
  match update_try (net (url self)) clk self with
  | Returns self' => self'
  | Raised _ => set_state self (JStr "Error")
  end.

End Update.

End Single.

(** ** [custom_components/mta_bus_time/sensor.py]: several stops, one cache *)

Module Multi.

(** One entry of [departures], as the schema validates it. *)
Record departure : Type := mkDeparture {
  name : string;
  monitoring_ref : string;
  route : option string
}.

(** [MIN_TIME_BETWEEN_UPDATES = datetime.timedelta(seconds=60)] *)
Definition MIN_TIME_BETWEEN_UPDATES : timedelta := seconds 60.

(** The shared data object.  [_throttle] is the time of the last run that
    the [Throttle] decorator keeps on its host, [None] before the first. *)
Record MTAData : Type := mkData {
  _api_key : string;
  _operator_ref : string;
  _departures : list departure;
  info : gmap string (list arrival);
  _throttle : option Z
}.

(** [MTAData.__init__] *)
Definition init (api_key operator_ref : string) (departures : list departure)
  : MTAData :=
  mkData api_key operator_ref departures ∅ None.

Definition url (self : MTAData) (dep : departure) : string :=
  let base :=
    "https://bustime.mta.info/api/siri/stop-monitoring.json?"
    +:+ "key=" +:+ _api_key self +:+ "&OperatorRef=" +:+ _operator_ref self
    +:+ "&MonitoringRef=" +:+ monitoring_ref dep in
  match route dep with
  | Some r => if String.eqb r EmptyString then base else base +:+ "&LineRef=" +:+ r
  | None => base
  end.

Section Update.

Variable parse_time : string -> option datetime.

(** The body of the [try] for one departure: the list stored under its
    name. *)
Definition fetch_try (out : http_outcome) : py (list arrival) :=
  match out with
  | Raises e => Raised e
  | Responds status_code body =>
      if negb (status_code =? 200) then Returns []
      else
        data ← response_json body;
        delivery ← delivery_visits data;
        match delivery with
        | Some visits =>
            '(arrivals, _) ← visit_loop parse_time visits [] None;
            Returns arrivals
        | None => Returns []
        end
  end.

Definition fetch (out : http_outcome) : list arrival :=
  match fetch_try out with
  | Returns arrivals => arrivals
  | Raised _ => []
  end.

(** The network as the cache sees it: the answer to the [n]-th request ever
    sent, for the URL asked.  [sent] is the log of the URLs requested so
    far. *)
Definition network : Type := nat -> string -> http_outcome.

(** [for dep in self._departures: ... new_info[dep_name] = ...] *)
Fixpoint update_loop (net : network) (self : MTAData) (deps : list departure)
    (sent : list string) (new_info : gmap string (list arrival))
  : list string * gmap string (list arrival) :=
  match deps with
  | [] => (sent, new_info)
  | dep :: rest =>
      let u := url self dep in
      let arrivals := fetch (net (length sent) u) in
      update_loop net self rest (sent ++ [u]) (<[name dep := arrivals]> new_info)
  end.

Definition set_info (self : MTAData) (i : gmap string (list arrival))
    (t : option Z) : MTAData :=
  mkData (_api_key self) (_operator_ref self) (_departures self) i t.

(** The undecorated [MTAData.update]. *)
Definition update_unthrottled (net : network) (sent : list string)
    (self : MTAData) : list string * gmap string (list arrival) :=
  update_loop net self (_departures self) sent ∅.

(** Modelled from the spec: the [Throttle] decorator of [homeassistant.util]
    is not under src/.  Section 4.5: within 60 seconds of the last refresh a
    call is a no-op, otherwise it runs and the time stamp is updated; the
    first call always runs.  The decorator compares
    [utcnow() - last > min_time], so a call exactly 60 seconds later is
    still throttled; that strict reading is the one taken here. *)
Definition throttle_open (last : option Z) (now : Z) : bool :=
  match last with
  | None => true
  | Some t => MIN_TIME_BETWEEN_UPDATES <? now - t
  end.

(** [MTAData.update] as decorated: [t_call] is the clock when the call is
    made and [t_done] when a run has finished, both in microseconds. *)
Definition update (net : network) (t_call t_done : Z)
    (w : list string * MTAData) : list string * MTAData :=
  let '(sent, self) := w in
  if throttle_open (_throttle self) t_call then
    let '(sent', new_info) := update_unthrottled net sent self in
    (sent', set_info self new_info (Some t_done))
  else (sent, self).

Record MTABusStopSensor : Type := mkStop {
  _dep_config : departure;
  _state : json;
  _attributes : list (string * json)
}.

(** [MTABusStopSensor.__init__] *)
Definition init_sensor (dep : departure) : MTABusStopSensor :=
  mkStop dep JNull [].

(** [self.data.info.get(self._dep_name, [])] *)
Definition arrivals_of (data : MTAData) (self : MTABusStopSensor)
  : list arrival :=
  default [] (info data !! name (_dep_config self)).

(** The [state] property, and the value [update] stores in [_state]. *)
Definition state (data : MTAData) (self : MTABusStopSensor) : json :=
  match arrivals_of data self with
  | first :: _ =>
      let eat := dict_get first "Estimated Arrival Time" JNull in
      if negb (is_str eat "Unavailable") then eat else JStr "No arrivals"
  | [] => JStr "No arrivals"
  end.

(** The ETA string of [extra_state_attributes]: the formatted time of the
    first arrival is read back with [strptime]; any exception gives
    ["N/A"]. *)
Definition eta_str (arrivals : list arrival) (clk : clock) : string :=
  match arrivals with
  | first :: _ =>
      let eat := dict_get first "Estimated Arrival Time" JNull in
      if negb (is_str eat "Unavailable") then
        match eat with
        | JStr s =>
            match strptime s with
            | Some expected_dt => eta_of_delta (minus_now expected_dt clk)
            | None => "N/A"
            end
        | _ => "N/A"
        end
      else "N/A"
  | [] => "N/A"
  end.

(** The [extra_state_attributes] property. *)
Definition extra_state_attributes (clk : clock) (data : MTAData)
    (self : MTABusStopSensor) : list (string * json) :=
  let arrivals := arrivals_of data self in
  let attrs :=
    [("Arrivals", JArr (map JObj arrivals));
     ("Monitoring Ref", JStr (monitoring_ref (_dep_config self)))]%string in
  let eta := eta_str arrivals clk in
  setitem "Arrives" (JStr eta) (setitem "ETA in minutes" (JStr eta) attrs).

(** [MTABusStopSensor.update]: the data object is shared by the sensors,
    so it is threaded with the request log. *)
Definition sensor_update (net : network) (t_call t_done : Z) (clk : clock)
    (w : list string * MTAData) (self : MTABusStopSensor)
  : (list string * MTAData) * MTABusStopSensor :=
  let w' := update net t_call t_done w in
  (w', mkStop (_dep_config self) (state (snd w') self)
              (extra_state_attributes clk (snd w') self)).

(** [setup_platform] of the component: the shared data object after its
    initial [update], and the sensors handed to [add_entities], one for each
    departure. *)
Definition setup_platform (net : network) (t_call t_done : Z)
    (sent : list string) (api_key operator_ref : string)
    (departures : list departure)
  : (list string * MTAData) * list MTABusStopSensor :=
  let data := init api_key operator_ref departures in
  (update net t_call t_done (sent, data), map init_sensor departures).

End Update.

End Multi.

(** ** Sample data *)

Module Sample.

Definition call_at (eat : string) (extensions : list (string * json)) : json :=
  JObj ([("AimedArrivalTime", JStr eat); ("ExpectedArrivalTime", JStr eat);
         ("StopPointName", JStr "MAIN ST")]%string ++ extensions).

Definition visit_of (call : json) : json :=
  JObj [("MonitoredVehicleJourney",
         JObj [("PublishedLineName", JStr "Q44"); ("MonitoredCall", call)])]%string.

Definition visit_at (eat : string) : json := visit_of (call_at eat []).

Definition body_of (deliveries : json) : json :=
  JObj [("Siri", JObj [("ServiceDelivery",
          JObj [("StopMonitoringDelivery", deliveries)])])]%string.

Definition body_with (visits : list json) : json :=
  body_of (JArr [JObj [("MonitoredStopVisit"%string, JArr visits)]]).

(** 2024-06-01T14:00:00-04:00 on a host whose local time is UTC. *)
Definition two_pm : clock :=
  mkClock (wall (mkDT 2024 6 1 18 0 0 0 None)) 0.

Definition sensor : Single.MTABusSensor := Single.init "k" "MTA" "502185" "Q44".

Definition stale : Single.MTABusSensor :=
  Single.set_both sensor (JStr "June 01, 2024 at 01:55 PM")
    [("Arrivals", JArr [JObj [("Route", JStr "Q44")]]);
     ("ETA in minutes", JStr "in 2 minutes")]%string.

Definition main_st : Multi.departure := Multi.mkDeparture "Main St" "502185" None.
Definition union_st : Multi.departure :=
  Multi.mkDeparture "Union St" "502186" (Some "Q20"%string).

Definition data : Multi.MTAData := Multi.init "k" "MTA" [main_st; union_st].

(** Two visits, due at 14:03 and at 14:10 (UTC-4). *)
Definition two_visits : json :=
  body_with [visit_at "2024-06-01T14:03:00-04:00";
             visit_at "2024-06-01T14:10:00-04:00"].

(** A visit whose Extensions hold the capacities and no distances. *)
Definition counted_visit : json :=
  visit_of (call_at "2024-06-01T14:03:00-04:00"
    [("Extensions",
      JObj [("Capacities",
             JObj [("EstimatedPassengerCount", JInt 5);
                   ("EstimatedPassengerCapacity", JInt 60)])])]%string).

(** Two deliveries: the visits of [two_visits], then one more visit. *)
Definition two_deliveries : json :=
  body_of (JArr [JObj [("MonitoredStopVisit"%string,
                        JArr [visit_at "2024-06-01T14:03:00-04:00";
                              visit_at "2024-06-01T14:10:00-04:00"])];
                 JObj [("MonitoredStopVisit"%string,
                        JArr [visit_at "2024-06-01T14:01:00-04:00"])]]).

(** 2024-06-01T14:00:00-04:00 on a host whose local time is UTC-4. *)
Definition two_pm_local : clock :=
  mkClock (wall (mkDT 2024 6 1 18 0 0 0 None)) (seconds (-14400)).

(** A visit that names its stop and gives no time. *)
Definition untimed_visit : json :=
  visit_of (JObj [("StopPointName"%string, JStr "MAIN ST")]).

(** Two departures under one name. *)
Definition twice : Multi.MTAData :=
  Multi.init "k" "MTA" [main_st; Multi.mkDeparture "Main St" "502186" None].

(** The first request is answered 500, the later ones with [two_visits]. *)
Definition flaky : Multi.network :=
  fun n _ =>
    match n with
    | O => Responds 500 None
    | S _ => Responds 200 (Some two_visits)
    end.





(** 2024-06-01T14:05:00-04:00 *)
Definition five_past_two : datetime :=
  mkDT 2024 6 1 14 5 0 0 (Some (seconds (-14400))).

End Sample.

(** ** Vocabulary of the properties *)

(** The minute in which the instant of [dt] falls, in UTC; a naive value is
    read in the local zone of the host, as [minus_now] reads it. *)
Definition minute_instant (host_offset : timedelta) (dt : datetime) : Z :=
  (wall dt - match tzinfo dt with Some off => off | None => host_offset end)
  / seconds 60.

(** A number of up to [fuel] digits at the head of a string. *)
Fixpoint read_number (fuel : nat) (acc : Z) (s : string) : Z * string :=
  match fuel, s with
  | S fuel', String c s' =>
      match digit_val c with
      | Some d => read_number fuel' (10 * acc + d) s'
      | None => (acc, s)
      end
  | _, _ => (acc, s)
  end.

(** A reader of the pattern that takes the year with one to four digits:
    on what [strftime] wrote it gives the date, hour and minute back
    whatever the year. *)
Definition reread (s : string) : option datetime :=
  '(mo, s) ← read_month s;
  s ← strip_prefix " " s;
  '(d, s) ← read2 s;
  s ← strip_prefix ", " s;
  let '(y, s) := read_number 4 0 s in
  s ← strip_prefix " at " s;
  '(h, s) ← read2 s;
  s ← strip_prefix ":" s;
  '(mi, s) ← read2 s;
  s ← strip_prefix " " s;
  pm ← read_ampm s;
  Some (mkDT y mo d (hour24 pm h) mi 0 0 None).

(** The value under key [k] of a record that may itself be absent. *)
Definition field (o : option json) (k : string) : option json :=
  match o with
  | Some (JObj items) => assoc k items
  | _ => None
  end.

(** The nested sub-records of a visit, [None] when the key is not there. *)
Definition journey_of (visit : json) : option json :=
  field (Some visit) "MonitoredVehicleJourney".
Definition call_of (visit : json) : option json :=
  field (journey_of visit) "MonitoredCall".
Definition extensions_of (visit : json) : option json :=
  field (call_of visit) "Extensions".
Definition distances_of (visit : json) : option json :=
  field (extensions_of visit) "Distances".
Definition capacities_of (visit : json) : option json :=
  field (extensions_of visit) "Capacities".

Definition record_or_absent (o : option json) : bool :=
  match o with
  | None | Some (JObj _) => true
  | Some _ => false
  end.

(** A visit record: an object in which each nested sub-record that is
    present is an object. *)
Definition well_shaped (visit : json) : bool :=
  record_or_absent (Some visit)
  && record_or_absent (journey_of visit)
  && record_or_absent (call_of visit)
  && record_or_absent (extensions_of visit)
  && record_or_absent (distances_of visit)
  && record_or_absent (capacities_of visit).

Definition absent (o : option json) : bool :=
  match o with None => true | Some _ => false end.

(** One of the five nested sub-records is not there. *)
Definition lacks_subrecord (visit : json) : bool :=
  absent (journey_of visit) || absent (call_of visit)
  || absent (extensions_of visit) || absent (distances_of visit)
  || absent (capacities_of visit).

Definition distance_sentinels (a : arrival) : Prop :=
  assoc "Distance" a = Some Unavailable /\ assoc "Distance (m)" a = Some JNull.

Definition capacity_sentinels (a : arrival) : Prop :=
  assoc "Passenger Count" a = Some JNull
  /\ assoc "Passenger Capacity" a = Some JNull.

(** The keys of every arrival, in the order of the dict display. *)
Definition arrival_keys : list string :=
  ["Route"; "Destination"; "Current Vehicle Location"; "Progress Rate";
   "Aimed Arrival Time"; "Estimated Arrival Time"; "Distance";
   "Distance (m)"; "Passenger Count"; "Passenger Capacity";
   "Stop Name"]%string.

(** [a] is the arrival that the Normalizer makes of [visit]. *)
Definition normalized (parse_time : string -> option datetime)
    (visit : json) (a : arrival) : Prop :=
  exists expected_dt, normalize parse_time visit = Returns (a, expected_dt).

(** What [call.get(k)] reads in the loop body: the value under [k] of the
    call of the visit, [None] when it is not there. *)
Definition raw_time (visit : json) (k : string) : json :=
  match call_of visit with
  | Some (JObj c) => dict_get c k JNull
  | _ => JNull
  end.

(** What [distances.get("PresentableDistance")] reads for a visit. *)
Definition presentable_distance (visit : json) : json :=
  match distances_of visit with
  | Some (JObj d) => dict_get d "PresentableDistance" JNull
  | _ => JNull
  end.

(** A decode error on a 200 response: the body is not JSON, or the path to
    the visits raises, or one of the visits is not a visit record. *)
Definition decode_fails (body : option json) : bool :=
  match body with
  | None => true
  | Some data =>
      match delivery_visits data with
      | Raised _ => true
      | Returns None => false
      | Returns (Some visits) => negb (forallb well_shaped visits)
      end
  end.

(** Two arrivals with the same keys that agree everywhere but on the two
    formatted times. *)
Definition same_but_times (a b : arrival) : Prop :=
  map fst a = map fst b
  /\ forall k,
       k <> "Aimed Arrival Time"%string ->
       k <> "Estimated Arrival Time"%string ->
       assoc k a = assoc k b.

(** The error path of [MTABusSensor.update]: the request raises, the status
    is not 200, or something raises while the response is decoded. *)
Definition error_path (parse_time : string -> option datetime)
    (out : http_outcome) (clk : clock) (self : Single.MTABusSensor) : Prop :=
  match out with
  | Raises _ => True
  | Responds status_code _ =>
      status_code <> 200
      \/ exists e, Single.update_try parse_time out clk self = Raised e
  end.

(** ** Reading back what [strftime] wrote *)

(** Linear arithmetic with division and remainder by constants. *)
Ltac divlia := Z.div_mod_to_equations; lia.

Section RoundTrip.

Lemma digit_val_digit (d : Z) : 0 <= d < 10 -> digit_val (digit d) = Some d.
Proof.
  intros H.
  assert (d = 0 \/ d = 1 \/ d = 2 \/ d = 3 \/ d = 4 \/ d = 5 \/ d = 6
          \/ d = 7 \/ d = 8 \/ d = 9) as Hd by lia.
  repeat (destruct Hd as [-> | Hd]; [reflexivity |]).
  subst d. reflexivity.
Qed.

Lemma append_cons (c : ascii) (s rest : string) :
  String c s +:+ rest = String c (s +:+ rest).
Proof. reflexivity. Qed.

Lemma append_empty (rest : string) : EmptyString +:+ rest = rest.
Proof. reflexivity. Qed.

Lemma read2_digits (a b : Z) (rest : string) :
  0 <= a < 10 -> 0 <= b < 10 ->
  read2 (String (digit a) (String (digit b) rest)) = Some (10 * a + b, rest).
Proof.
  intros Ha Hb. unfold read2, read_digit.
  rewrite (digit_val_digit a Ha). cbn [mbind option_bind].
  rewrite (digit_val_digit b Hb). reflexivity.
Qed.

Lemma read2_pad2 (n : Z) (rest : string) :
  0 <= n < 100 -> read2 (pad2 n +:+ rest) = Some (n, rest).
Proof.
  intros H. unfold pad2. rewrite !append_cons, append_empty.
  rewrite read2_digits by divlia.
  f_equal. f_equal. divlia.
Qed.

Lemma read4_pad4 (n : Z) (rest : string) :
  0 <= n < 10000 -> read4 (pad4 n +:+ rest) = Some (n, rest).
Proof.
  intros H. unfold pad4, pad2, read4. rewrite !append_cons, append_empty.
  rewrite read2_digits by divlia. cbn [mbind option_bind].
  rewrite read2_digits by divlia. cbn [mbind option_bind].
  f_equal. f_equal. divlia.
Qed.

Lemma read_month_name (m : Z) (rest : string) :
  1 <= m <= 12 -> read_month (month_name m +:+ rest) = Some (m, rest).
Proof.
  intros H.
  assert (m = 1 \/ m = 2 \/ m = 3 \/ m = 4 \/ m = 5 \/ m = 6 \/ m = 7
          \/ m = 8 \/ m = 9 \/ m = 10 \/ m = 11 \/ m = 12) as Hm by lia.
  repeat (destruct Hm as [-> | Hm]; [reflexivity |]).
  subst m. reflexivity.
Qed.

Lemma strip_prefix_append (p rest : string) :
  strip_prefix p (p +:+ rest) = Some rest.
Proof.
  induction p as [| c p IH].
  - reflexivity.
  - rewrite append_cons. cbn [strip_prefix]. rewrite Ascii.eqb_refl. exact IH.
Qed.

Lemma valid_bounds (dt : datetime) :
  valid dt = true ->
  1 <= year dt <= 9999 /\ 1 <= month dt <= 12
  /\ 1 <= day dt <= days_in_month (year dt) (month dt)
  /\ 0 <= hour dt <= 23 /\ 0 <= minute dt <= 59
  /\ 0 <= second dt <= 59 /\ 0 <= microsecond dt <= 999999.
Proof.
  unfold valid. rewrite !andb_true_iff, !Z.leb_le. tauto.
Qed.

Lemma days_in_month_le (y m : Z) : days_in_month y m <= 31.
Proof.
  unfold days_in_month.
  destruct ((m =? 2) && is_leap y); [lia |].
  destruct (Z.to_nat m) as [| [| [| [| [| [| [| [| [| [| [| [| [| k]]]]]]]]]]]]];
    cbn [nth]; try lia.
  destruct k; cbn [nth]; lia.
Qed.

Lemma hour12_bounds (h : Z) : 0 <= h <= 23 -> 1 <= hour12 h <= 12.
Proof.
  intros H. unfold hour12. destruct (Z.eqb_spec (h mod 12) 0); divlia.
Qed.

Lemma hour24_hour12 (h : Z) :
  0 <= h <= 23 -> hour24 (negb (h <? 12)) (hour12 h) = h.
Proof.
  intros H. unfold hour24, hour12.
  destruct (Z.ltb_spec h 12); cbn [negb];
    destruct (Z.eqb_spec (h mod 12) 0);
    repeat match goal with
           | |- context [Z.eqb ?a ?b] => destruct (Z.eqb_spec a b)
           end; divlia.
Qed.

(** What [strftime] wrote of a valid [datetime] is read back by [strptime]
    as the same date, hour and minute, without seconds and without
    offset. *)
Lemma year_digits_pad4 (y : Z) : 1000 <= y -> year_digits y = pad4 y.
Proof.
  intros H. unfold year_digits.
  destruct (Z.ltb_spec y 10); [lia |].
  destruct (Z.ltb_spec y 100); [lia |].
  destruct (Z.ltb_spec y 1000); [lia | reflexivity].
Qed.

Lemma strptime_strftime (dt : datetime) :
  valid dt = true -> 1000 <= year dt ->
  strptime (strftime dt) = Some (naive_minute dt).
Proof.
  intros Hv Hy4.
  pose proof (valid_bounds dt Hv) as (Hy & Hm & Hd & Hh & Hmi & _).
  pose proof (days_in_month_le (year dt) (month dt)) as Hdim.
  pose proof (hour12_bounds (hour dt) Hh) as Hh12.
  unfold strptime, strftime. rewrite (year_digits_pad4 _ Hy4).
  rewrite read_month_name by lia. cbn [mbind option_bind].
  rewrite strip_prefix_append. cbn [mbind option_bind].
  rewrite read2_pad2 by lia. cbn [mbind option_bind].
  rewrite strip_prefix_append. cbn [mbind option_bind].
  rewrite read4_pad4 by lia. cbn [mbind option_bind].
  rewrite strip_prefix_append. cbn [mbind option_bind].
  rewrite read2_pad2 by lia. cbn [mbind option_bind].
  rewrite strip_prefix_append. cbn [mbind option_bind].
  rewrite read2_pad2 by lia. cbn [mbind option_bind].
  rewrite strip_prefix_append. cbn [mbind option_bind].
  assert (read_ampm (if hour dt <? 12 then "AM" else "PM")
          = Some (negb (hour dt <? 12))) as ->
    by (destruct (hour dt <? 12); reflexivity).
  cbn [mbind option_bind].
  rewrite hour24_hour12 by lia.
  assert ((1 <=? day dt) && (day dt <=? 31) && (1 <=? hour12 (hour dt))
          && (hour12 (hour dt) <=? 12) && (minute dt <=? 59) = true) as ->.
  { rewrite !andb_true_iff, !Z.leb_le. lia. }
  assert (valid (mkDT (year dt) (month dt) (day dt) (hour dt) (minute dt)
                      0 0 None) = true) as ->.
  { unfold valid. cbn [year month day hour minute second microsecond].
    rewrite !andb_true_iff, !Z.leb_le. lia. }
  reflexivity.
Qed.

Lemma at_head (rest : string) :
  " at " +:+ rest = String " " ("at " +:+ rest).
Proof. reflexivity. Qed.

Lemma read_number_year (y : Z) (rest : string) :
  1 <= y <= 9999 ->
  read_number 4 0 (year_digits y +:+ String " " rest) = (y, String " " rest).
Proof.
  intros H. unfold year_digits, pad4, pad2.
  destruct (Z.ltb_spec y 10); [| destruct (Z.ltb_spec y 100);
    [| destruct (Z.ltb_spec y 1000)]];
    rewrite !append_cons, append_empty; cbn [read_number];
    rewrite ?digit_val_digit by divlia;
    change (digit_val " ") with (@None Z); cbn [read_number];
    f_equal; divlia.
Qed.

(** Whatever the year, what [strftime] wrote identifies the minute. *)
Lemma reread_strftime (dt : datetime) :
  valid dt = true -> reread (strftime dt) = Some (naive_minute dt).
Proof.
  intros Hv. pose proof (valid_bounds dt Hv) as (Hy & Hm & Hd & Hh & Hmi & _).
  pose proof (days_in_month_le (year dt) (month dt)) as Hdim.
  pose proof (hour12_bounds (hour dt) Hh) as Hh12.
  unfold reread, strftime.
  rewrite read_month_name by lia. cbn [mbind option_bind].
  rewrite strip_prefix_append. cbn [mbind option_bind].
  rewrite read2_pad2 by lia. cbn [mbind option_bind].
  rewrite strip_prefix_append. cbn [mbind option_bind].
  rewrite at_head, read_number_year by lia. rewrite <- at_head.
  rewrite strip_prefix_append. cbn [mbind option_bind].
  rewrite read2_pad2 by lia. cbn [mbind option_bind].
  rewrite strip_prefix_append. cbn [mbind option_bind].
  rewrite read2_pad2 by lia. cbn [mbind option_bind].
  rewrite strip_prefix_append. cbn [mbind option_bind].
  assert (read_ampm (if hour dt <? 12 then "AM" else "PM")
          = Some (negb (hour dt <? 12))) as ->
    by (destruct (hour dt <? 12); reflexivity).
  cbn [mbind option_bind].
  rewrite hour24_hour12 by lia. reflexivity.
Qed.

End RoundTrip.

(** ** The minute count in binary64 *)

Section Doubles.

Lemma round_half_even_cases (n d : Z) :
  0 < d ->
  (round_half_even n d = n / d /\ 2 * (n mod d) <= d)
  \/ (round_half_even n d = n / d + 1 /\ d <= 2 * (n mod d)).
Proof.
  intros Hd. unfold round_half_even.
  destruct (Z.compare_spec (2 * (n mod d)) d) as [E | L | G].
  - destruct (Z.even (n / d)); [left | right]; split; lia.
  - left. split; lia.
  - right. split; lia.
Qed.

Lemma round_at_least (n d T : Z) :
  0 < d -> T * d <= n -> T <= round_half_even n d.
Proof.
  intros Hd H.
  assert (T <= n / d) by (apply Z.div_le_lower_bound; lia).
  destruct (round_half_even_cases n d Hd) as [[-> _] | [-> _]]; lia.
Qed.

Lemma round_at_most (n d T : Z) :
  0 < d -> n <= T * d -> round_half_even n d <= T.
Proof.
  intros Hd H.
  pose proof (Z.div_mod n d ltac:(lia)) as E.
  pose proof (Z.mod_pos_bound n d Hd) as B.
  destruct (round_half_even_cases n d Hd) as [[-> _] | [-> Hr]]; nia.
Qed.

Lemma round_above (n d T s : Z) :
  0 < d -> d < 2 * s -> T * d + s <= n -> T + 1 <= round_half_even n d.
Proof.
  intros Hd Hs H.
  pose proof (Z.div_mod n d ltac:(lia)) as E.
  pose proof (Z.mod_pos_bound n d Hd) as B.
  destruct (round_half_even_cases n d Hd) as [[-> Hr] | [-> Hr]]; nia.
Qed.

Lemma round_below (n d T s : Z) :
  0 < d -> d < 2 * s -> n <= T * d - s -> round_half_even n d <= T - 1.
Proof.
  intros Hd Hs H.
  pose proof (Z.div_mod n d ltac:(lia)) as E.
  pose proof (Z.mod_pos_bound n d Hd) as B.
  destruct (round_half_even_cases n d Hd) as [[-> Hr] | [-> Hr]]; nia.
Qed.

(** Below 2^34 seconds the quotient is rounded to a multiple of 2^-19 or
    finer, which is less than a microsecond. *)
Lemma nearest_double_exponent (n : Z) :
  0 < n < 2 ^ 34 * 10 ^ 6 ->
  exponent (nearest_double n (10 ^ 6)) <= -19.
Proof.
  intros [Hpos Hlt]. unfold nearest_double. cbn [exponent].
  change (Z.log2 (10 ^ 6)) with 19.
  assert (Z.log2 n < 54) as Hlog.
  { apply Z.log2_lt_pow2; [exact Hpos |].
    eapply Z.lt_trans; [exact Hlt | reflexivity]. }
  destruct (Z.eq_dec (Z.log2 n - 19) 34) as [E | NE].
  - rewrite E. unfold ratio_below. cbn [Z.leb Z.compare].
    destruct (Z.ltb_spec n (10 ^ 6 * 2 ^ 34)); lia.
  - destruct (ratio_below n (10 ^ 6) (Z.log2 n - 19)); lia.
Qed.

Lemma floordiv_nearest_double (n : Z) :
  0 < n < 2 ^ 34 * 10 ^ 6 ->
  floordiv (nearest_double n (10 ^ 6)) 60 = n / (60 * 10 ^ 6)
  /\ floordiv (mkDouble (- mantissa (nearest_double n (10 ^ 6)))
                        (exponent (nearest_double n (10 ^ 6)))) 60
     = (- n) / (60 * 10 ^ 6).
Proof.
  intros Hn. pose proof (nearest_double_exponent n Hn) as He.
  unfold floordiv. cbn [mantissa exponent].
  remember (exponent (nearest_double n (10 ^ 6))) as e eqn:Ee.
  assert (mantissa (nearest_double n (10 ^ 6))
          = round_half_even (n * 2 ^ (- e)) (10 ^ 6)) as ->.
  { unfold nearest_double in *. cbn [mantissa exponent] in *. rewrite <- Ee.
    destruct (Z.ltb_spec e 0); [reflexivity | lia]. }
  destruct (Z.leb_spec 0 e); [lia |].
  assert (2 ^ 19 <= 2 ^ (- e)) as Hs by (apply Z.pow_le_mono_r; lia).
  set (s := 2 ^ (- e)) in *. change (2 ^ 19) with 524288 in Hs.
  change (10 ^ 6) with 1000000 in *. change (2 ^ 34) with 17179869184 in Hn.
  split.
  - set (k := n / (60 * 1000000)).
    pose proof (Z.mul_div_le n (60 * 1000000) ltac:(lia)) as Hlo.
    pose proof (Z.mul_succ_div_gt n (60 * 1000000) ltac:(lia)) as Hhi.
    fold k in Hlo, Hhi.
    pose proof (round_at_least (n * s) 1000000 (60 * s * k) ltac:(lia)
                  ltac:(nia)) as H1.
    pose proof (round_below (n * s) 1000000 (60 * s * (k + 1)) s ltac:(lia)
                  ltac:(lia) ltac:(nia)) as H2.
    symmetry. apply (Z.div_unique _ _ k
      (round_half_even (n * s) 1000000 - 60 * s * k)); [left |]; nia.
  - set (k := (- n) / (60 * 1000000)).
    pose proof (Z.mul_div_le (- n) (60 * 1000000) ltac:(lia)) as Hlo.
    pose proof (Z.mul_succ_div_gt (- n) (60 * 1000000) ltac:(lia)) as Hhi.
    fold k in Hlo, Hhi.
    pose proof (round_at_most (n * s) 1000000 (- (60 * s * k)) ltac:(lia)
                  ltac:(nia)) as H1.
    pose proof (round_above (n * s) 1000000 (- (60 * s * (k + 1))) s
                  ltac:(lia) ltac:(lia) ltac:(nia)) as H2.
    symmetry. apply (Z.div_unique _ _ k
      (- round_half_even (n * s) 1000000 - 60 * s * k)); [left |]; nia.
Qed.

(** Less than 2^34 seconds (some 544 years) from now, the count of the code
    is the floor of the exact quotient. *)
Lemma whole_minutes_exact (delta : timedelta) :
  Z.abs delta < seconds (2 ^ 34) -> whole_minutes delta = delta / seconds 60.
Proof.
  unfold seconds, whole_minutes, total_seconds, true_divide. intros H.
  change (60 * 1000000) with (60 * 10 ^ 6).
  destruct (Z.eqb_spec delta 0) as [-> | Hne]; [reflexivity |].
  destruct (Z.ltb_spec 0 delta) as [Hpos | Hneg].
  - apply floordiv_nearest_double. change (10 ^ 6) with 1000000. lia.
  - rewrite <- (Z.opp_involutive delta) at 3.
    apply floordiv_nearest_double. change (10 ^ 6) with 1000000. lia.
Qed.

End Doubles.

(** ** The Normalizer on a visit *)

Section NormalizerFacts.

Variable parse_time : string -> option datetime.

Lemma bind_Returns {A B : Type} (m : py A) (k : A -> py B) (b : B) :
  m ≫= k = Returns b -> exists a, m = Returns a /\ k a = Returns b.
Proof.
  destruct m as [a | e]; cbn; intros H; [eauto | discriminate].
Qed.

Lemma dict_get_record (items : list (string * json)) (k : string) :
  record_or_absent (assoc k items) = true ->
  exists items',
    dict_get items k empty_dict = JObj items'
    /\ forall k', assoc k' items' = field (assoc k items) k'.
Proof.
  unfold dict_get. destruct (assoc k items) as [[] |]; cbn; intros H;
    try discriminate; eexists; split; reflexivity.
Qed.

(** On a well-shaped visit the Normalizer returns, and every value of the
    arrival is read from the sub-record it belongs to. *)
Lemma normalize_well_shaped (visit : json) :
  well_shaped visit = true ->
  exists j c d p,
    (forall k, assoc k d = field (distances_of visit) k)
    /\ (forall k, assoc k p = field (capacities_of visit) k)
    /\ normalize parse_time visit
       = Returns
           ([ ("Route", dict_get j "PublishedLineName" JNull);
              ("Destination", dict_get j "DestinationName" JNull);
              ("Current Vehicle Location", dict_get j "VehicleLocation" JNull);
              ("Progress Rate", dict_get j "ProgressRate" JNull);
              ("Aimed Arrival Time",
               formatted (parse_field parse_time
                            (dict_get c "AimedArrivalTime" JNull)));
              ("Estimated Arrival Time",
               formatted (parse_field parse_time
                            (dict_get c "ExpectedArrivalTime" JNull)));
              ("Distance",
               if truthy (dict_get d "PresentableDistance" JNull)
               then dict_get d "PresentableDistance" JNull else Unavailable);
              ("Distance (m)", dict_get d "DistanceFromCall" JNull);
              ("Passenger Count", dict_get p "EstimatedPassengerCount" JNull);
              ("Passenger Capacity",
               dict_get p "EstimatedPassengerCapacity" JNull);
              ("Stop Name", dict_get c "StopPointName" JNull) ]%string,
            parse_field parse_time (dict_get c "ExpectedArrivalTime" JNull)).
Proof.
  unfold well_shaped. rewrite !andb_true_iff.
  intros (((((Hv & Hj) & Hc) & He) & Hd) & Hp).
  destruct visit as [| | | | | | items]; try discriminate Hv.
  unfold capacities_of, distances_of, extensions_of, call_of, journey_of in *.
  cbn [field] in *.
  destruct (dict_get_record items _ Hj) as (j & Ej & Fj).
  rewrite <- Fj in Hc.
  destruct (dict_get_record j _ Hc) as (c & Ec & Fc).
  rewrite <- Fj, <- Fc in He.
  destruct (dict_get_record c _ He) as (e & Ee & Fe).
  rewrite <- Fj, <- Fc, <- Fe in Hd, Hp.
  destruct (dict_get_record e _ Hd) as (d & Ed & Fd).
  destruct (dict_get_record e _ Hp) as (p & Ep & Fp).
  exists j, c, d, p.
  split; [intros k; rewrite Fd, Fe, Fc, Fj; reflexivity |].
  split; [intros k; rewrite Fp, Fe, Fc, Fj; reflexivity |].
  unfold normalize, get, get_default.
  cbn [mbind py_bind]. rewrite Ej. cbn [mbind py_bind].
  rewrite Ec. cbn [mbind py_bind]. rewrite Ee. cbn [mbind py_bind].
  rewrite Ed. cbn [mbind py_bind]. rewrite Ep. cbn [mbind py_bind].
  reflexivity.
Qed.

Lemma visit_loop_Returns (visits : list json) :
  forall acc e0 arrivals e,
    visit_loop parse_time visits acc e0 = Returns (arrivals, e) ->
    exists new,
      arrivals = acc ++ new /\ Forall2 (normalized parse_time) visits new.
Proof.
  induction visits as [| visit rest IH]; intros acc e0 arrivals e H.
  - injection H as <- _. exists []. split; [symmetry; apply app_nil_r |].
    constructor.
  - cbn [visit_loop] in H. apply bind_Returns in H.
    destruct H as ([a e1] & Hn & H).
    apply IH in H. destruct H as (new & -> & Hall).
    exists (a :: new). split; [rewrite <- app_assoc; reflexivity |].
    constructor; [exists e1; exact Hn | exact Hall].
Qed.

Lemma visit_loop_complete (visits : list json) (new : list arrival) :
  Forall2 (normalized parse_time) visits new ->
  forall acc e0,
    exists e, visit_loop parse_time visits acc e0 = Returns (acc ++ new, e).
Proof.
  induction 1 as [| visit a rest new' (e1 & Hn) _ IH]; intros acc e0.
  - exists e0. rewrite app_nil_r. reflexivity.
  - cbn [visit_loop]. rewrite Hn. cbn [mbind py_bind].
    destruct (IH (acc ++ [a]) e1) as (e & ->).
    exists e. rewrite <- app_assoc. reflexivity.
Qed.

(** The visits that are read are those of the first delivery. *)
Lemma delivery_visits_first (data siri service first : json)
    (others visits : list json) :
  get_default data "Siri" empty_dict = Returns siri ->
  get_default siri "ServiceDelivery" empty_dict = Returns service ->
  get_default service "StopMonitoringDelivery" (JArr [])
  = Returns (JArr (first :: others)) ->
  get_default first "MonitoredStopVisit" (JArr []) = Returns (JArr visits) ->
  delivery_visits data = Returns (Some visits).
Proof.
  intros H1 H2 H3 H4. unfold delivery_visits.
  rewrite H1. cbn [mbind py_bind]. rewrite H2. cbn [mbind py_bind].
  rewrite H3. cbn [mbind py_bind truthy item0]. rewrite H4. reflexivity.
Qed.

Lemma map_JObj_inj (l l' : list arrival) : map JObj l = map JObj l' -> l = l'.
Proof.
  revert l'. induction l as [| a l IH]; intros [| a' l'] H;
    try discriminate; [reflexivity |].
  injection H as -> H. f_equal. apply IH. exact H.
Qed.

End NormalizerFacts.

(** ** The cache of the component *)

Section CacheFacts.

Variable parse_time : string -> option datetime.
Variable net : Multi.network.
Variable self : Multi.MTAData.

(** A run sends one request for each departure, in their order. *)
Lemma update_loop_sent (deps : list Multi.departure) :
  forall sent acc,
    fst (Multi.update_loop parse_time net self deps sent acc)
    = sent ++ map (Multi.url self) deps.
Proof.
  induction deps as [| dep rest IH]; intros sent acc; cbn [Multi.update_loop].
  - cbn [fst map]. symmetry. apply app_nil_r.
  - rewrite IH. cbn [map]. rewrite <- app_assoc. reflexivity.
Qed.

Lemma update_loop_other (deps : list Multi.departure) (n : string) :
  n ∉ map Multi.name deps ->
  forall sent acc,
    snd (Multi.update_loop parse_time net self deps sent acc) !! n = acc !! n.
Proof.
  induction deps as [| dep rest IH]; intros Hn sent acc;
    cbn [Multi.update_loop].
  - reflexivity.
  - cbn [map] in Hn. apply not_elem_of_cons in Hn as [Hne Hn].
    rewrite IH by exact Hn. apply lookup_insert_ne. congruence.
Qed.

(** With distinct names, the entry of the [i]-th departure is what its own
    request fetched. *)
Lemma update_loop_entry (deps : list Multi.departure) :
  NoDup (map Multi.name deps) ->
  forall (i : nat) dep sent acc,
    deps !! i = Some dep ->
    snd (Multi.update_loop parse_time net self deps sent acc)
      !! Multi.name dep
    = Some (Multi.fetch parse_time
              (net (length sent + i)%nat (Multi.url self dep))).
Proof.
  induction deps as [| dep0 rest IH]; intros Hnd i dep sent acc Hi.
  - discriminate Hi.
  - cbn [map] in Hnd. apply NoDup_cons in Hnd as [Hfresh Hnd].
    cbn [Multi.update_loop]. destruct i as [| i].
    + injection Hi as ->. rewrite update_loop_other by exact Hfresh.
      rewrite lookup_insert_eq. rewrite Nat.add_0_r. reflexivity.
    + rewrite (IH Hnd i dep) by exact Hi.
      rewrite length_app. cbn [length].
      replace (length sent + 1 + i)%nat with (length sent + S i)%nat by lia.
      reflexivity.
Qed.

(** The loop reads the key and the operator of [self] only. *)
Lemma update_loop_set_info (deps : list Multi.departure) i t :
  forall sent acc,
    Multi.update_loop parse_time net (Multi.set_info self i t) deps sent acc
    = Multi.update_loop parse_time net self deps sent acc.
Proof.
  induction deps as [| dep rest IH]; intros sent acc; cbn [Multi.update_loop].
  - reflexivity.
  - rewrite IH. reflexivity.
Qed.

(** A call that the throttle lets through sends the requests, replaces the
    mapping by the one built from the empty dict, and stamps the time. *)
Lemma update_runs (t_call t_done : Z) (sent : list string) :
  Multi.throttle_open (Multi._throttle self) t_call = true ->
  Multi.update parse_time net t_call t_done (sent, self)
  = (sent ++ map (Multi.url self) (Multi._departures self),
     Multi.set_info self
       (snd (Multi.update_loop parse_time net self (Multi._departures self)
               sent ∅))
       (Some t_done)).
Proof.
  intros H. unfold Multi.update, Multi.update_unthrottled. rewrite H.
  pose proof (update_loop_sent (Multi._departures self) sent ∅) as Hs.
  destruct (Multi.update_loop parse_time net self (Multi._departures self)
              sent ∅) as [sent' new_info].
  cbn [fst snd] in *. rewrite Hs. reflexivity.
Qed.

Lemma update_skips (t_call t_done : Z) (sent : list string) :
  Multi.throttle_open (Multi._throttle self) t_call = false ->
  Multi.update parse_time net t_call t_done (sent, self) = (sent, self).
Proof. intros H. unfold Multi.update. rewrite H. reflexivity. Qed.

End CacheFacts.

Section SensorFacts.

Variable parse_time : string -> option datetime.

(** After a run, a sensor sees what the request of its departure fetched. *)
Lemma sensor_update_entry (net : Multi.network) (t_call t_done : Z)
    (clk : clock) (sent : list string) (data : Multi.MTAData)
    (sensor : Multi.MTABusStopSensor) (i : nat) :
  Multi.throttle_open (Multi._throttle data) t_call = true ->
  NoDup (map Multi.name (Multi._departures data)) ->
  Multi._departures data !! i = Some (Multi._dep_config sensor) ->
  let r := Multi.sensor_update parse_time net t_call t_done clk
             (sent, data) sensor in
  Multi.arrivals_of (snd (fst r)) (snd r)
  = Multi.fetch parse_time
      (net (length sent + i)%nat
           (Multi.url data (Multi._dep_config sensor))).
Proof.
  intros Hopen Hnd Hi. cbv zeta.
  unfold Multi.sensor_update, Multi.update. rewrite Hopen.
  unfold Multi.update_unthrottled.
  destruct (Multi.update_loop parse_time net data (Multi._departures data)
              sent ∅) as [sent' new_info] eqn:E.
  cbn [fst snd]. unfold Multi.arrivals_of.
  cbn [Multi.info Multi.set_info Multi._dep_config].
  pose proof (update_loop_entry parse_time net data _ Hnd i _ sent ∅ Hi) as H.
  rewrite E in H. cbn [snd] in H. rewrite H. reflexivity.
Qed.

Lemma state_no_arrivals (data : Multi.MTAData)
    (sensor : Multi.MTABusStopSensor) :
  Multi.arrivals_of data sensor = [] ->
  Multi.state data sensor = JStr "No arrivals".
Proof. unfold Multi.state. intros ->. reflexivity. Qed.

(** A response that is not 200 stores the empty list. *)
Lemma fetch_not_200 (status : Z) (body : option json) :
  status <> 200 -> Multi.fetch parse_time (Responds status body) = [].
Proof.
  intros H. unfold Multi.fetch, Multi.fetch_try.
  destruct (Z.eqb_spec status 200); [contradiction | reflexivity].
Qed.

(** The decoding is the same in the two sensors: what makes one raise makes
    the other raise. *)
Lemma decode_raises_in_both (body : option json) (e : exn) (clk : clock)
    (sensor : Single.MTABusSensor) :
  Multi.fetch_try parse_time (Responds 200 body) = Raised e ->
  Single.update_try parse_time (Responds 200 body) clk sensor = Raised e.
Proof.
  unfold Multi.fetch_try, Single.update_try.
  cbn [Z.eqb Pos.eqb negb].
  destruct (response_json body) as [data | e1]; cbn [mbind py_bind];
    [| congruence].
  destruct (delivery_visits data) as [[visits |] | e2]; cbn [mbind py_bind];
    [| discriminate | congruence].
  destruct (visit_loop parse_time visits [] None) as [[arrs e3] | e3];
    cbn [mbind py_bind]; [discriminate | congruence].
Qed.

End SensorFacts.

(** ** Stop Cache *)

(** C5: a call that runs sends one request for each configured target; a
    second call less than 60 seconds after it changes nothing, neither the
    mapping nor the time stamp nor the requests sent; a call more than 60
    seconds after the stamp sends one request for each target again,
    whatever the earlier fetches gave, and the mapping it leaves is built
    from the empty dict out of the new results alone. *)
Theorem throttle_one_fetch_per_target
    (parse_time : string -> option datetime) (net : Multi.network)
    (sent : list string) (data : Multi.MTAData) (t1 t1' t2 t2' : Z) :
  Multi.throttle_open (Multi._throttle data) t1 = true ->
  t1 <= t1' ->
  t2 - t1 < seconds 60 ->
  let deps := Multi._departures data in
  let urls := map (Multi.url data) deps in
  let w1 := Multi.update parse_time net t1 t1' (sent, data) in
  let w2 := Multi.update parse_time net t2 t2' w1 in
  fst w1 = sent ++ urls
  /\ Multi._throttle (snd w1) = Some t1'
  /\ w2 = w1
  /\ forall t3 t3',
       seconds 60 < t3 - t1' ->
       let w3 := Multi.update parse_time net t3 t3' w2 in
       fst w3 = fst w2 ++ urls
       /\ Multi._throttle (snd w3) = Some t3'
       /\ Multi.info (snd w3)
          = snd (Multi.update_loop parse_time net data deps (fst w2) ∅)
       /\ (forall n, n ∉ map Multi.name deps ->
                     Multi.info (snd w3) !! n = None)
       /\ (NoDup (map Multi.name deps) ->
           forall (i : nat) dep,
             deps !! i = Some dep ->
             Multi.info (snd w3) !! Multi.name dep
             = Some (Multi.fetch parse_time
                       (net (length (fst w2) + i)%nat (Multi.url data dep)))).
Proof.
  intros Hopen Hle Hlt. cbv zeta.
  rewrite (update_runs parse_time net data t1 t1' sent Hopen).
  set (info1 := snd (Multi.update_loop parse_time net data
                       (Multi._departures data) sent ∅)).
  set (data1 := Multi.set_info data info1 (Some t1')).
  assert (Multi.throttle_open (Multi._throttle data1) t2 = false) as Hshut.
  { cbn. unfold Multi.MIN_TIME_BETWEEN_UPDATES. apply Z.ltb_ge. lia. }
  rewrite (update_skips parse_time net data1 t2 t2' _ Hshut).
  split; [reflexivity |]. split; [reflexivity |]. split; [reflexivity |].
  intros t3 t3' H3.
  assert (Multi.throttle_open (Multi._throttle data1) t3 = true) as Hopen3.
  { cbn. unfold Multi.MIN_TIME_BETWEEN_UPDATES. apply Z.ltb_lt. exact H3. }
  rewrite (update_runs parse_time net data1 t3 t3' _ Hopen3).
  cbn [fst snd Multi._throttle Multi.info Multi.set_info Multi._departures].
  subst data1. rewrite update_loop_set_info.
  split; [reflexivity |]. split; [reflexivity |]. split; [reflexivity |].
  split.
  - intros n Hn. rewrite update_loop_other by exact Hn. apply lookup_empty.
  - intros Hnd i dep Hi.
    apply (update_loop_entry parse_time net data _ Hnd i dep _ ∅ Hi).
Qed.

Lemma throttle_one_fetch_per_target_witness :
  let net := fun (n : nat) (_ : string) =>
               if (n <? 2)%nat then Responds 500 None
               else Responds 200 (Some Sample.two_visits) in
  let w1 := Multi.update parse_iso net 0 (seconds 2) ([], Sample.data) in
  let w2 := Multi.update parse_iso net (seconds 30) (seconds 31) w1 in
  length (fst w1) = 2%nat /\ w2 = w1.
Proof.
  intros net w1 w2.
  destruct (throttle_one_fetch_per_target parse_iso net [] Sample.data
              0 (seconds 2) (seconds 30) (seconds 31))
    as (Hsent & _ & Hsame & _).
  - reflexivity.
  - vm_compute. discriminate.
  - reflexivity.
  - split; [| exact Hsame].
    change (length (fst w1) = 2%nat). unfold w1. rewrite Hsent. reflexivity.
Defined.

(** ** ETA Calculator *)

(** C2, at a response with two visits due at 14:03 and 14:10 read at 14:00:
    [sensor.py] shows the first arrival as its state, and computes the ETA
    from the [expected_dt] that the last round of the loop left behind, so
    it reads "in 10 minutes" where the first arrival is due in 3. *)
Theorem single_eta_follows_last_visit :
  let self := Single.update parse_iso
                (fun _ => Responds 200 (Some Sample.two_visits))
                Sample.two_pm Sample.sensor in
  Single._state self = JStr "June 01, 2024 at 02:03 PM"
  /\ assoc "ETA in minutes" (Single._attributes self)
     = Some (JStr "in 10 minutes")
  /\ Single.eta_in_minutes (parse_iso "2024-06-01T14:03:00-04:00")
       Sample.two_pm = "in 3 minutes".
Proof. vm_compute. repeat split. Qed.

(** ** Formatting and reading back *)

(** For 2024-06-01T14:05:00-04:00 on a host whose local time is UTC, what
    is read back is the naive 14:05, four hours before the instant that was
    formatted. *)
Lemma reparse_drops_utc_offset :
  valid Sample.five_past_two = true
  /\ ~ (exists dt,
         strptime (strftime Sample.five_past_two) = Some dt
         /\ minute_instant 0 dt = minute_instant 0 Sample.five_past_two).
Proof.
  split; [reflexivity |].
  intros (dt & Hparse & Hsame).
  vm_compute in Hparse. injection Hparse as <-.
  vm_compute in Hsame. discriminate.
Qed.

(** For a valid date-time from the year 1000 on, reading back what was
    formatted gives the same year, month, day, hour and minute, with no
    seconds and no UTC offset; the value falls in the same minute as the
    original instant when the host zone is a whole number of minutes and
    the original was naive or in the zone of the host. *)
Theorem format_reparse_wall_minute (dt : datetime) :
  valid dt = true -> 1000 <= year dt ->
  strptime (strftime dt) = Some (naive_minute dt)
  /\ (forall host,
        host mod seconds 60 = 0 ->
        tzinfo dt = None \/ tzinfo dt = Some host ->
        minute_instant host (naive_minute dt) = minute_instant host dt).
Proof.
  intros Hv Hy. split; [exact (strptime_strftime dt Hv Hy) |].
  intros host Hhost Htz.
  pose proof (valid_bounds dt Hv) as (_ & _ & _ & _ & _ & Hs & Hus).
  unfold minute_instant, wall, naive_minute, seconds in *.
  cbn [year month day hour minute second microsecond tzinfo].
  generalize (ymd2ord (year dt) (month dt) (day dt)). intros o.
  destruct Htz as [-> | ->]; divlia.
Qed.

Lemma format_reparse_wall_minute_witness :
  strptime (strftime Sample.five_past_two)
  = Some (naive_minute Sample.five_past_two).
Proof.
  apply (format_reparse_wall_minute Sample.five_past_two);
    [reflexivity | vm_compute; discriminate].
Defined.

(** ** Arrival Normalizer *)

(** C3, as stated, fails for a visit whose Extensions hold Capacities and no
    Distances: a nested sub-record is absent and the passenger count is
    still the one reported. *)
Lemma distances_absent_capacities_kept :
  well_shaped Sample.counted_visit = true
  /\ lacks_subrecord Sample.counted_visit = true
  /\ ~ (exists a,
         normalized parse_iso Sample.counted_visit a
         /\ distance_sentinels a /\ capacity_sentinels a).
Proof.
  split; [reflexivity |]. split; [reflexivity |].
  intros (a & (e & Hn) & _ & Hcount & _).
  vm_compute in Hn. injection Hn as <- _.
  vm_compute in Hcount. discriminate.
Qed.

(** C3, amended: on a visit record (each nested sub-record that is present
    being an object) the Normalizer raises nothing; when the Extensions (or
    the call or the journey above them) are absent, "Distance" is
    "Unavailable" and "Distance (m)", "Passenger Count" and "Passenger
    Capacity" are None; when only the Distances are absent the two distance
    values are the sentinels, and when only the Capacities are absent the
    two passenger values are None. *)
Theorem normalize_absent_subrecords
    (parse_time : string -> option datetime) (visit : json) :
  well_shaped visit = true ->
  exists a,
    normalized parse_time visit a
    /\ (extensions_of visit = None ->
        distance_sentinels a /\ capacity_sentinels a)
    /\ (distances_of visit = None -> distance_sentinels a)
    /\ (capacities_of visit = None -> capacity_sentinels a).
Proof.
  intros Hw.
  destruct (normalize_well_shaped parse_time visit Hw)
    as (j & c & d & p & Fd & Fp & Hn).
  eexists. split; [eexists; exact Hn |].
  assert (distances_of visit = None ->
          distance_sentinels
            [ ("Route", dict_get j "PublishedLineName" JNull);
              ("Destination", dict_get j "DestinationName" JNull);
              ("Current Vehicle Location", dict_get j "VehicleLocation" JNull);
              ("Progress Rate", dict_get j "ProgressRate" JNull);
              ("Aimed Arrival Time",
               formatted (parse_field parse_time
                            (dict_get c "AimedArrivalTime" JNull)));
              ("Estimated Arrival Time",
               formatted (parse_field parse_time
                            (dict_get c "ExpectedArrivalTime" JNull)));
              ("Distance",
               if truthy (dict_get d "PresentableDistance" JNull)
               then dict_get d "PresentableDistance" JNull else Unavailable);
              ("Distance (m)", dict_get d "DistanceFromCall" JNull);
              ("Passenger Count", dict_get p "EstimatedPassengerCount" JNull);
              ("Passenger Capacity",
               dict_get p "EstimatedPassengerCapacity" JNull);
              ("Stop Name", dict_get c "StopPointName" JNull) ]%string)
    as Hdist.
  { intros E. unfold distance_sentinels, dict_get.
    rewrite !Fd, E. split; reflexivity. }
  assert (capacities_of visit = None ->
          capacity_sentinels
            [ ("Route", dict_get j "PublishedLineName" JNull);
              ("Destination", dict_get j "DestinationName" JNull);
              ("Current Vehicle Location", dict_get j "VehicleLocation" JNull);
              ("Progress Rate", dict_get j "ProgressRate" JNull);
              ("Aimed Arrival Time",
               formatted (parse_field parse_time
                            (dict_get c "AimedArrivalTime" JNull)));
              ("Estimated Arrival Time",
               formatted (parse_field parse_time
                            (dict_get c "ExpectedArrivalTime" JNull)));
              ("Distance",
               if truthy (dict_get d "PresentableDistance" JNull)
               then dict_get d "PresentableDistance" JNull else Unavailable);
              ("Distance (m)", dict_get d "DistanceFromCall" JNull);
              ("Passenger Count", dict_get p "EstimatedPassengerCount" JNull);
              ("Passenger Capacity",
               dict_get p "EstimatedPassengerCapacity" JNull);
              ("Stop Name", dict_get c "StopPointName" JNull) ]%string)
    as Hcap.
  { intros E. unfold capacity_sentinels, dict_get.
    rewrite !Fp, E. split; reflexivity. }
  split; [| split; assumption].
  intros E. unfold distances_of, capacities_of in Hdist, Hcap.
  rewrite E in Hdist, Hcap. split; [apply Hdist | apply Hcap]; reflexivity.
Qed.

Lemma normalize_absent_subrecords_witness :
  exists a,
    normalized parse_iso (Sample.visit_at "2024-06-01T14:03:00-04:00") a
    /\ distance_sentinels a /\ capacity_sentinels a.
Proof.
  destruct (normalize_absent_subrecords parse_iso
              (Sample.visit_at "2024-06-01T14:03:00-04:00") eq_refl)
    as (a & Hn & Hext & _).
  exists a. split; [exact Hn |]. apply Hext. reflexivity.
Defined.

(** C9: every arrival that the Normalizer produces, in either sensor and for
    any visit, has the same eleven keys, each once and in the same order;
    for a visit that says nothing, every value is None or "Unavailable". *)
Theorem normalize_keys
    (parse_time : string -> option datetime) (visit : json) (a : arrival) :
  normalized parse_time visit a ->
  map fst a = arrival_keys
  /\ NoDup arrival_keys
  /\ normalize parse_time (JObj [])
     = Returns ([ ("Route", JNull); ("Destination", JNull);
                  ("Current Vehicle Location", JNull);
                  ("Progress Rate", JNull);
                  ("Aimed Arrival Time", Unavailable);
                  ("Estimated Arrival Time", Unavailable);
                  ("Distance", Unavailable); ("Distance (m)", JNull);
                  ("Passenger Count", JNull); ("Passenger Capacity", JNull);
                  ("Stop Name", JNull) ]%string, None).
Proof.
  intros (e & H). split; [| split].
  - unfold normalize in H.
    repeat (apply bind_Returns in H; destruct H as (? & _ & H)).
    injection H as <- _. reflexivity.
  - apply (bool_decide_unpack _). vm_compute. exact I.
  - reflexivity.
Qed.

Lemma normalize_keys_witness :
  exists a,
    normalized parse_iso Sample.counted_visit a /\ map fst a = arrival_keys.
Proof.
  eexists. split.
  - exists (parse_iso "2024-06-01T14:03:00-04:00"). vm_compute. reflexivity.
  - refine (proj1 (normalize_keys parse_iso Sample.counted_visit _ _)).
    exists (parse_iso "2024-06-01T14:03:00-04:00"). vm_compute. reflexivity.
Defined.

(** ** Feed Fetcher *)

(** C8: when the delivery list of a decoded response starts with [first],
    whose visits are [visits], the arrivals that either sensor builds are
    the normalised visits of [first], one for each and in their order,
    whatever deliveries follow; the fetch returns them exactly when every
    visit normalises. *)
Theorem arrivals_follow_first_delivery
    (parse_time : string -> option datetime)
    (data siri service first : json) (others visits : list json)
    (arrivals : list arrival) :
  get_default data "Siri" empty_dict = Returns siri ->
  get_default siri "ServiceDelivery" empty_dict = Returns service ->
  get_default service "StopMonitoringDelivery" (JArr [])
  = Returns (JArr (first :: others)) ->
  get_default first "MonitoredStopVisit" (JArr []) = Returns (JArr visits) ->
  (Multi.fetch_try parse_time (Responds 200 (Some data)) = Returns arrivals
   <-> Forall2 (normalized parse_time) visits arrivals)
  /\ (forall clk self,
        (exists self',
           Single.update_try parse_time (Responds 200 (Some data)) clk self
           = Returns self'
           /\ assoc "Arrivals" (Single._attributes self')
              = Some (JArr (map JObj arrivals)))
        <-> Forall2 (normalized parse_time) visits arrivals).
Proof.
  intros H1 H2 H3 H4.
  pose proof (delivery_visits_first data siri service first others visits
                H1 H2 H3 H4) as Hd.
  split; [| intros clk self]; split.
  - unfold Multi.fetch_try. cbn [Z.eqb Pos.eqb negb response_json mbind py_bind].
    rewrite Hd. cbn [mbind py_bind]. intros H.
    apply bind_Returns in H. destruct H as ([arrs e] & Hl & H).
    injection H as <-.
    apply visit_loop_Returns in Hl. destruct Hl as (new & -> & Hall).
    exact Hall.
  - intros Hall. unfold Multi.fetch_try.
    cbn [Z.eqb Pos.eqb negb response_json mbind py_bind].
    rewrite Hd. cbn [mbind py_bind].
    destruct (visit_loop_complete parse_time visits arrivals Hall [] None)
      as (e & ->).
    reflexivity.
  - intros (self' & H & Hattr). unfold Single.update_try in H.
    cbn [Z.eqb Pos.eqb negb response_json mbind py_bind] in H.
    rewrite Hd in H. cbn [mbind py_bind] in H.
    apply bind_Returns in H. destruct H as ([arrs e] & Hl & H).
    apply visit_loop_Returns in Hl. destruct Hl as (new & -> & Hall).
    cbn [app] in H.
    destruct new as [| a new]; injection H as <-;
      cbn in Hattr; injection Hattr as Hattr;
      apply (map_JObj_inj []) in Hattr || apply (map_JObj_inj (_ :: _)) in Hattr;
      subst arrivals; exact Hall.
  - intros Hall. unfold Single.update_try.
    cbn [Z.eqb Pos.eqb negb response_json mbind py_bind].
    rewrite Hd. cbn [mbind py_bind].
    destruct (visit_loop_complete parse_time visits arrivals Hall [] None)
      as (e & ->).
    cbn [mbind py_bind app].
    destruct arrivals; eexists; (split; [reflexivity |]); reflexivity.
Qed.

Lemma arrivals_follow_first_delivery_witness :
  exists a1 a2,
    Multi.fetch_try parse_iso (Responds 200 (Some Sample.two_deliveries))
    = Returns [a1; a2]
    /\ normalized parse_iso (Sample.visit_at "2024-06-01T14:03:00-04:00") a1
    /\ normalized parse_iso (Sample.visit_at "2024-06-01T14:10:00-04:00") a2.
Proof.
  assert (exists a1, normalized parse_iso
                       (Sample.visit_at "2024-06-01T14:03:00-04:00") a1)
    as (a1 & N1) by (eexists; eexists; vm_compute; reflexivity).
  assert (exists a2, normalized parse_iso
                       (Sample.visit_at "2024-06-01T14:10:00-04:00") a2)
    as (a2 & N2) by (eexists; eexists; vm_compute; reflexivity).
  exists a1, a2. split; [| split; assumption].
  eapply (proj1 (arrivals_follow_first_delivery parse_iso
                   Sample.two_deliveries _ _ _ _ _ [a1; a2]
                   eq_refl eq_refl eq_refl eq_refl)).
  repeat constructor; assumption.
Defined.

(** ** Entity Adapter *)

(** C4: after [update] the state of the single-target sensor is "Error"
    when the request raises, the status is not 200 or the decoding raises;
    "No data" when the delivery list is absent or empty; "No arrivals" when
    the first delivery has no visit; and the "Estimated Arrival Time" of the
    first arrival otherwise.  In the component, a status other than 200 for
    a target leaves it the empty list, and its sensor reads "No arrivals". *)
Theorem state_after_update (parse_time : string -> option datetime) :
  (forall net clk self,
     let self' := Single.update parse_time net clk self in
     (forall e,
        net (Single.url self) = Raises e ->
        Single._state self' = JStr "Error")
     /\ (forall status body,
          net (Single.url self) = Responds status body -> status <> 200 ->
          Single._state self' = JStr "Error")
     /\ (forall body e,
          net (Single.url self) = Responds 200 body ->
          Single.update_try parse_time (Responds 200 body) clk self
          = Raised e ->
          Single._state self' = JStr "Error")
     /\ (forall data siri service delivery,
          net (Single.url self) = Responds 200 (Some data) ->
          get_default data "Siri" empty_dict = Returns siri ->
          get_default siri "ServiceDelivery" empty_dict = Returns service ->
          get_default service "StopMonitoringDelivery" (JArr [])
          = Returns delivery ->
          truthy delivery = false ->
          Single._state self' = JStr "No data")
     /\ (forall data siri service first others visits arrivals,
          net (Single.url self) = Responds 200 (Some data) ->
          get_default data "Siri" empty_dict = Returns siri ->
          get_default siri "ServiceDelivery" empty_dict = Returns service ->
          get_default service "StopMonitoringDelivery" (JArr [])
          = Returns (JArr (first :: others)) ->
          get_default first "MonitoredStopVisit" (JArr [])
          = Returns (JArr visits) ->
          Forall2 (normalized parse_time) visits arrivals ->
          Single._state self'
          = match arrivals with
            | first_arrival :: _ =>
                dict_get first_arrival "Estimated Arrival Time" JNull
            | [] => JStr "No arrivals"
            end))
  /\ (forall net t_call t_done clk sent data sensor i status body,
        Multi.throttle_open (Multi._throttle data) t_call = true ->
        NoDup (map Multi.name (Multi._departures data)) ->
        Multi._departures data !! i = Some (Multi._dep_config sensor) ->
        net (length sent + i)%nat (Multi.url data (Multi._dep_config sensor))
        = Responds status body ->
        status <> 200 ->
        let r := Multi.sensor_update parse_time net t_call t_done clk
                   (sent, data) sensor in
        Multi.arrivals_of (snd (fst r)) (snd r) = []
        /\ Multi._state (snd r) = JStr "No arrivals").
Proof.
  split.
  - intros net clk self. cbv zeta. unfold Single.update.
    split; [| split; [| split; [| split]]].
    + intros e ->. reflexivity.
    + intros status body -> Hs. unfold Single.update_try.
      destruct (Z.eqb_spec status 200); [contradiction | reflexivity].
    + intros body e -> ->. reflexivity.
    + intros data siri service delivery -> H1 H2 H3 Hf.
      unfold Single.update_try, delivery_visits.
      cbn [Z.eqb Pos.eqb negb response_json mbind py_bind].
      rewrite H1. cbn [mbind py_bind]. rewrite H2. cbn [mbind py_bind].
      rewrite H3. cbn [mbind py_bind]. rewrite Hf. reflexivity.
    + intros data siri service first others visits arrivals -> H1 H2 H3 H4 Hall.
      unfold Single.update_try.
      cbn [Z.eqb Pos.eqb negb response_json mbind py_bind].
      rewrite (delivery_visits_first data siri service first others visits
                 H1 H2 H3 H4).
      cbn [mbind py_bind].
      destruct (visit_loop_complete parse_time visits arrivals Hall [] None)
        as (e & ->).
      cbn [mbind py_bind app]. destruct arrivals; reflexivity.
  - intros net t_call t_done clk sent data sensor i status body
      Hopen Hnd Hi Hnet Hs.
    pose proof (sensor_update_entry parse_time net t_call t_done clk sent
                  data sensor i Hopen Hnd Hi) as Hentry.
    cbv zeta in *. rewrite Hnet, (fetch_not_200 parse_time _ _ Hs) in Hentry.
    split; [exact Hentry |].
    unfold Multi.sensor_update in *. cbn [snd fst Multi._state] in *.
    unfold Multi.state.
    unfold Multi.arrivals_of in *. cbn [Multi._dep_config] in *.
    rewrite Hentry. reflexivity.
Qed.

Lemma state_after_update_witness :
  Single._state
    (Single.update parse_iso (fun _ => Responds 500 None) Sample.two_pm
       Sample.stale) = JStr "Error"
  /\ Multi._state
       (snd (Multi.sensor_update parse_iso (fun _ _ => Responds 500 None)
               0 0 Sample.two_pm ([], Sample.data)
               (Multi.init_sensor Sample.main_st)))
     = JStr "No arrivals".
Proof.
  destruct (state_after_update parse_iso) as [Hsingle Hmulti]. split.
  - destruct (Hsingle (fun _ => Responds 500 None) Sample.two_pm Sample.stale)
      as (_ & H & _).
    apply (H 500 None); [reflexivity | discriminate].
  - apply (Hmulti (fun _ _ => Responds 500 None) 0 0 Sample.two_pm []
             Sample.data (Multi.init_sensor Sample.main_st) 0%nat 500 None).
    + reflexivity.
    + apply (bool_decide_unpack _). vm_compute. exact I.
    + reflexivity.
    + reflexivity.
    + discriminate.
Defined.

(** C10: on the error path of the single-target [update] the state becomes
    "Error" and the attributes stay those of the previous cycle; when the
    response is decoded, state and attributes are made from the response
    alone. *)
Theorem error_path_keeps_attributes
    (parse_time : string -> option datetime) (net : string -> http_outcome)
    (clk : clock) (self : Single.MTABusSensor) :
  (error_path parse_time (net (Single.url self)) clk self ->
   Single._state (Single.update parse_time net clk self) = JStr "Error"
   /\ Single._attributes (Single.update parse_time net clk self)
      = Single._attributes self)
  /\ (forall body self',
        net (Single.url self) = Responds 200 body ->
        Single.update_try parse_time (Responds 200 body) clk self
        = Returns self' ->
        Single.update parse_time net clk self = self'
        /\ forall other,
             Single.update_try parse_time (Responds 200 body) clk other
             = Returns (Single.set_both other (Single._state self')
                          (Single._attributes self'))).
Proof.
  split.
  - unfold error_path, Single.update.
    destruct (net (Single.url self)) as [e | status body].
    + intros _. split; reflexivity.
    + intros [Hs | (e & ->)]; [| split; reflexivity].
      unfold Single.update_try.
      destruct (Z.eqb_spec status 200); [contradiction |].
      split; reflexivity.
  - intros body self' Hnet Htry. unfold Single.update. rewrite Hnet, Htry.
    split; [reflexivity |]. intros other.
    unfold Single.update_try in *.
    cbn [Z.eqb Pos.eqb negb] in *.
    destruct (response_json body) as [data |]; cbn [mbind py_bind] in *;
      [| discriminate].
    destruct (delivery_visits data) as [[visits |] |];
      cbn [mbind py_bind] in *; [| | discriminate].
    + destruct (visit_loop parse_time visits [] None) as [[arrs e] |];
        cbn [mbind py_bind] in *; [| discriminate].
      destruct arrs; injection Htry as <-; reflexivity.
    + injection Htry as <-. reflexivity.
Qed.

Lemma error_path_keeps_attributes_witness :
  Single._attributes
    (Single.update parse_iso (fun _ => Responds 500 None) Sample.two_pm
       Sample.stale)
  = Single._attributes Sample.stale.
Proof.
  apply (error_path_keeps_attributes parse_iso (fun _ => Responds 500 None)
           Sample.two_pm Sample.stale).
  left. discriminate.
Defined.

(** ** Error handling *)

(** C7, as stated, fails on a body that is not JSON: the component catches
    the error and its sensor reads "No arrivals", not "Error"; the
    single-target sensor reads "Error" and keeps the arrivals of the
    previous cycle instead of an empty list. *)
Lemma malformed_json_is_caught :
  Multi._state
    (snd (Multi.sensor_update parse_iso (fun _ _ => Responds 200 None)
            0 0 Sample.two_pm ([], Sample.data)
            (Multi.init_sensor Sample.main_st)))
  <> JStr "Error"
  /\ assoc "Arrivals"
       (Single._attributes
          (Single.update parse_iso (fun _ => Responds 200 None)
             Sample.two_pm Sample.stale))
     <> Some (JArr []).
Proof. split; vm_compute; discriminate. Qed.

(** ** Further properties of the Normalizer *)

Section NormalizerShape.

Variable parse_time : string -> option datetime.

Lemma get_default_Returns (o : json) (k : string) (d v : json) :
  get_default o k d = Returns v ->
  exists items, o = JObj items /\ v = dict_get items k d.
Proof.
  destruct o; cbn; intros H; try discriminate.
  injection H as <-. eexists. split; reflexivity.
Qed.

Lemma dict_get_is_record (items j : list (string * json)) (k : string) :
  dict_get items k empty_dict = JObj j ->
  record_or_absent (assoc k items) = true
  /\ forall k', field (assoc k items) k' = assoc k' j.
Proof.
  unfold dict_get. destruct (assoc k items) as [v |]; intros H.
  - subst v. split; reflexivity.
  - injection H as <-. split; reflexivity.
Qed.

(** Whenever the loop body returns, the visit, its journey, call and
    extensions, and the distances and capacities are dicts (the default
    [{}] when absent), and the arrival is read from them. *)
Lemma normalize_Returns (visit : json) (a : arrival) (e : option datetime) :
  normalize parse_time visit = Returns (a, e) ->
  exists items j c x d p,
    visit = JObj items
    /\ dict_get items "MonitoredVehicleJourney" empty_dict = JObj j
    /\ dict_get j "MonitoredCall" empty_dict = JObj c
    /\ dict_get c "Extensions" empty_dict = JObj x
    /\ dict_get x "Distances" empty_dict = JObj d
    /\ dict_get x "Capacities" empty_dict = JObj p
    /\ e = parse_field parse_time (dict_get c "ExpectedArrivalTime" JNull)
    /\ a = [ ("Route", dict_get j "PublishedLineName" JNull);
             ("Destination", dict_get j "DestinationName" JNull);
             ("Current Vehicle Location", dict_get j "VehicleLocation" JNull);
             ("Progress Rate", dict_get j "ProgressRate" JNull);
             ("Aimed Arrival Time",
              formatted (parse_field parse_time
                           (dict_get c "AimedArrivalTime" JNull)));
             ("Estimated Arrival Time",
              formatted (parse_field parse_time
                           (dict_get c "ExpectedArrivalTime" JNull)));
             ("Distance",
              if truthy (dict_get d "PresentableDistance" JNull)
              then dict_get d "PresentableDistance" JNull else Unavailable);
             ("Distance (m)", dict_get d "DistanceFromCall" JNull);
             ("Passenger Count", dict_get p "EstimatedPassengerCount" JNull);
             ("Passenger Capacity",
              dict_get p "EstimatedPassengerCapacity" JNull);
             ("Stop Name", dict_get c "StopPointName" JNull) ]%string.
Proof.
  intros H. unfold normalize in H.
  apply bind_Returns in H. destruct H as (journey & Hj & H).
  apply get_default_Returns in Hj. destruct Hj as (items & -> & ->).
  apply bind_Returns in H. destruct H as (call & Hc & H).
  apply get_default_Returns in Hc. destruct Hc as (j & Ej & ->).
  apply bind_Returns in H. destruct H as (ext & Hx & H).
  apply get_default_Returns in Hx. destruct Hx as (c & Ec & ->).
  apply bind_Returns in H. destruct H as (dist & Hd & H).
  apply get_default_Returns in Hd. destruct Hd as (x & Ex & ->).
  rewrite Ej, Ec, Ex in H. unfold get in H.
  cbn [get_default mbind py_bind] in H.
  destruct (dict_get x "Distances" empty_dict) as [| | | | | | d] eqn:Ed;
    try discriminate H.
  cbn [get_default mbind py_bind] in H.
  destruct (dict_get x "Capacities" empty_dict) as [| | | | | | p] eqn:Ep;
    try discriminate H.
  cbn [get_default mbind py_bind] in H.
  injection H as <- <-.
  exists items, j, c, x, d, p. repeat (split; [assumption || reflexivity |]).
  reflexivity.
Qed.

End NormalizerShape.

Section NormalizerMore.

Variable parse_time : string -> option datetime.

Lemma strftime_not_Unavailable (dt : datetime) :
  strftime dt <> "Unavailable"%string.
Proof.
  unfold strftime, month_name, month_names.
  destruct (Z.to_nat (month dt - 1))
    as [| [| [| [| [| [| [| [| [| [| [| [| k]]]]]]]]]]]];
    cbn [nth]; rewrite ?append_cons, ?append_empty; try discriminate.
  destruct k; cbn [nth]; rewrite ?append_cons, ?append_empty; discriminate.
Qed.

Lemma raw_time_call (items j c : list (string * json)) (k : string) :
  dict_get items "MonitoredVehicleJourney" empty_dict = JObj j ->
  dict_get j "MonitoredCall" empty_dict = JObj c ->
  raw_time (JObj items) k = dict_get c k JNull.
Proof.
  intros Ej Ec.
  destruct (dict_get_is_record _ _ _ Ej) as (_ & Fj).
  unfold raw_time, call_of, journey_of. cbn [field]. rewrite Fj.
  unfold dict_get in Ec.
  destruct (assoc "MonitoredCall" j) as [v |].
  - subst v. reflexivity.
  - injection Ec as <-. reflexivity.
Qed.

(** The Normalizer returns exactly on the visit records: an object whose
    journey, call, extensions, distances and capacities are objects where
    they are present.  A sub-record that is present and is not an object
    (for instance null) makes it raise. *)
Theorem normalize_returns_iff_well_shaped (visit : json) :
  (exists a, normalized parse_time visit a) <-> well_shaped visit = true.
Proof.
  split.
  - intros (a & e & H).
    apply normalize_Returns in H.
    destruct H as (items & j & c & x & d & p & -> & Ej & Ec & Ex & Ed & Ep & _).
    destruct (dict_get_is_record _ _ _ Ej) as (Rj & Fj).
    destruct (dict_get_is_record _ _ _ Ec) as (Rc & Fc).
    destruct (dict_get_is_record _ _ _ Ex) as (Rx & Fx).
    destruct (dict_get_is_record _ _ _ Ed) as (Rd & _).
    destruct (dict_get_is_record _ _ _ Ep) as (Rp & _).
    unfold well_shaped, capacities_of, distances_of, extensions_of, call_of,
      journey_of.
    cbn [field]. rewrite !Fj, !Fc, !Fx, Rj, Rc, Rx, Rd, Rp. reflexivity.
  - intros Hw.
    destruct (normalize_well_shaped parse_time visit Hw)
      as (j & c & d & p & _ & _ & Hn).
    eexists. eexists. exact Hn.
Qed.

(** The two time stamps of a visit are handled each on its own: each
    formatted field is made from its own raw value alone; a raw value is
    handed to the parser only when it is a non-empty string; and a field
    reads "Unavailable" exactly when no time was parsed for it. *)
Theorem time_fields_independent
    (visit : json) (a : arrival) (e : option datetime) :
  normalize parse_time visit = Returns (a, e) ->
  let aimed := parse_field parse_time (raw_time visit "AimedArrivalTime") in
  let expected :=
    parse_field parse_time (raw_time visit "ExpectedArrivalTime") in
  assoc "Aimed Arrival Time" a = Some (formatted aimed)
  /\ assoc "Estimated Arrival Time" a = Some (formatted expected)
  /\ e = expected
  /\ (forall raw dt,
        parse_field parse_time raw = Some dt ->
        exists s, raw = JStr s /\ s <> EmptyString /\ parse_time s = Some dt)
  /\ (forall dt : option datetime, formatted dt = Unavailable <-> dt = None).
Proof.
  intros H. cbv zeta. apply normalize_Returns in H.
  destruct H as (items & j & c & x & d & p & -> & Ej & Ec & _ & _ & _ & -> & ->).
  rewrite !(raw_time_call items j c _ Ej Ec).
  split; [reflexivity |]. split; [reflexivity |]. split; [reflexivity |].
  split.
  - intros raw dt. unfold parse_field.
    destruct (truthy raw) eqn:T; [| discriminate].
    destruct raw; try discriminate. intros Hp.
    eexists. split; [reflexivity |]. split; [| exact Hp].
    intros ->. discriminate T.
  - intros [dt |]; cbn [formatted]; split; intros H;
      try reflexivity; try discriminate.
    unfold Unavailable in H. injection H as H.
    destruct (strftime_not_Unavailable dt H).
Qed.

End NormalizerMore.

Lemma normalize_returns_iff_well_shaped_witness :
  ~ (exists a,
       normalized parse_iso
         (Sample.visit_of (Sample.call_at "2024-06-01T14:03:00-04:00"
                             [("Extensions"%string, JNull)])) a).
Proof.
  intros H.
  apply (proj1 (normalize_returns_iff_well_shaped parse_iso _)) in H.
  vm_compute in H. discriminate H.
Defined.

Lemma time_fields_independent_witness :
  exists a,
    normalized parse_iso
      (Sample.visit_of
         (JObj [("AimedArrivalTime", JStr "soon");
                ("ExpectedArrivalTime", JStr "2024-06-01T14:03:00-04:00")]%string))
      a
    /\ assoc "Aimed Arrival Time" a = Some Unavailable
    /\ assoc "Estimated Arrival Time" a
       = Some (JStr "June 01, 2024 at 02:03 PM").
Proof.
  eexists. split; [eexists; vm_compute; reflexivity |].
  pose proof (time_fields_independent parse_iso
                (Sample.visit_of
                   (JObj [("AimedArrivalTime", JStr "soon");
                          ("ExpectedArrivalTime",
                           JStr "2024-06-01T14:03:00-04:00")]%string))
                _ _ eq_refl) as (Ha & He & _).
  split; [exact Ha | exact He].
Defined.

(** ** Further properties of the ETA and of the states *)

Section EtaMore.

Variable parse_time : string -> option datetime.

Lemma normalize_estimated (visit : json) (a : arrival)
    (e : option datetime) :
  normalize parse_time visit = Returns (a, e) ->
  dict_get a "Estimated Arrival Time" JNull = formatted e.
Proof.
  intros H. apply normalize_Returns in H.
  destruct H as (items & j & c & x & d & p & _ & _ & _ & _ & _ & _ & -> & ->).
  reflexivity.
Qed.

Lemma formatted_is_str (dt : datetime) :
  is_str (formatted (Some dt)) "Unavailable" = false.
Proof.
  cbn [formatted is_str].
  destruct (String.eqb_spec (strftime dt) "Unavailable") as [E |];
    [destruct (strftime_not_Unavailable dt E) | reflexivity].
Qed.

(** In the component the ETA of a target is computed from the first
    arrival: when its expected time parsed to a valid [dt] of the year 1000
    or later, the count runs
    from the wall-clock minute of [dt], without seconds and without offset,
    to the local time of the host; when no expected time was parsed it is
    "N/A". *)
Theorem component_eta_from_wall_minute
    (visit : json) (first : arrival) (e : option datetime) :
  normalize parse_time visit = Returns (first, e) ->
  forall (rest : list arrival) (clk : clock),
    (e = None -> Multi.eta_str (first :: rest) clk = "N/A"%string)
    /\ (forall dt,
          e = Some dt -> valid dt = true -> 1000 <= year dt ->
          Multi.eta_str (first :: rest) clk
          = eta_of_delta (wall (naive_minute dt)
                          - (utc_now clk + local_offset clk))).
Proof.
  intros H rest clk. apply normalize_estimated in H.
  unfold Multi.eta_str. rewrite H. split.
  - intros ->. reflexivity.
  - intros dt -> Hv Hy. rewrite formatted_is_str. cbn [negb formatted].
    rewrite (strptime_strftime dt Hv Hy). reflexivity.
Qed.

(** The state of a sensor of the component is never "Unavailable": a first
    arrival without a parsed expected time reads "No arrivals", with ETA
    "N/A", although the arrivals are there. *)
Theorem component_state_never_unavailable
    (data : Multi.MTAData) (sensor : Multi.MTABusStopSensor) :
  Multi.state data sensor <> Unavailable
  /\ (forall visit first rest clk,
        normalize parse_time visit = Returns (first, None) ->
        Multi.arrivals_of data sensor = first :: rest ->
        Multi.state data sensor = JStr "No arrivals"
        /\ assoc "Arrivals" (Multi.extra_state_attributes clk data sensor)
           = Some (JArr (map JObj (first :: rest)))
        /\ assoc "ETA in minutes"
             (Multi.extra_state_attributes clk data sensor)
           = Some (JStr "N/A")).
Proof.
  split.
  - unfold Multi.state.
    destruct (Multi.arrivals_of data sensor) as [| first rest];
      [discriminate |].
    destruct (dict_get first "Estimated Arrival Time" JNull)
      as [| | | | s | |]; cbn [is_str negb]; try discriminate.
    destruct (String.eqb_spec s "Unavailable") as [-> | Hne];
      cbn [negb]; [discriminate |].
    unfold Unavailable. congruence.
  - intros visit first rest clk Hn Ha. apply normalize_estimated in Hn.
    unfold Multi.state, Multi.extra_state_attributes, Multi.eta_str.
    rewrite Ha, Hn. split; [reflexivity |]. split; reflexivity.
Qed.

(** The single-target sensor, in the same situation, shows "Unavailable"
    as its state. *)
Theorem single_state_unavailable
    (data : json) (visit : json) (more : list json) (first : arrival)
    (clk : clock) (self self' : Single.MTABusSensor) :
  delivery_visits data = Returns (Some (visit :: more)) ->
  normalize parse_time visit = Returns (first, None) ->
  Single.update_try parse_time (Responds 200 (Some data)) clk self
  = Returns self' ->
  Single._state self' = Unavailable.
Proof.
  intros Hd Hn H. unfold Single.update_try in H.
  cbn [Z.eqb Pos.eqb negb response_json mbind py_bind] in H.
  rewrite Hd in H. cbn [mbind py_bind visit_loop] in H. rewrite Hn in H.
  cbn [mbind py_bind] in H.
  apply bind_Returns in H. destruct H as ([arrs e] & Hl & H).
  apply visit_loop_Returns in Hl. destruct Hl as (new & -> & _).
  cbn [app] in H. injection H as <-. cbn [Single._state Single.set_both].
  exact (normalize_estimated visit first None Hn).
Qed.

End EtaMore.

(** Reading the formatted time back costs at most one minute of the count:
    for a time that is naive or in the zone of the host, and less than 2^34
    seconds from now, the count made from the string is the count made from
    the parsed time or one less, and the same when the time has no
    seconds. *)
Theorem reparse_costs_at_most_a_minute (dt : datetime) (clk : clock) :
  valid dt = true ->
  tzinfo dt = None \/ tzinfo dt = Some (local_offset clk) ->
  Z.abs (minus_now dt clk) < seconds (2 ^ 34 - 60) ->
  let m := whole_minutes (minus_now dt clk) in
  let m' := whole_minutes (minus_now (naive_minute dt) clk) in
  m - 1 <= m' <= m
  /\ (second dt = 0 -> microsecond dt = 0 -> m' = m).
Proof.
  intros Hv Htz Hrange. cbv zeta.
  pose proof (valid_bounds dt Hv) as (_ & _ & _ & _ & _ & Hs & Hus).
  assert (minus_now (naive_minute dt) clk
          = minus_now dt clk - (seconds (second dt) + microsecond dt)) as E.
  { unfold minus_now, wall, naive_minute, seconds.
    cbn [year month day hour minute second microsecond tzinfo].
    destruct Htz as [-> | ->]; lia. }
  rewrite E. unfold seconds in *.
  rewrite !whole_minutes_exact by (unfold seconds; lia).
  unfold seconds. generalize (minus_now dt clk). intros d.
  split; [| intros -> ->]; divlia.
Qed.

(** Without the bound the two counts can be two minutes apart: some 1089
    years ahead, three microseconds short of a minute, the double of
    [total_seconds] is rounded up to the minute, and the count taken
    59.999999 seconds earlier is not. *)
Lemma far_counts_are_two_apart :
  whole_minutes (seconds 34359738420 - 3) = 572662307
  /\ whole_minutes (seconds 34359738420 - 3 - (seconds 60 - 1)) = 572662305.
Proof. vm_compute. split; reflexivity. Qed.

(** Two valid times with the same formatted string are in the same minute
    of the same day. *)
Theorem strftime_same_minute (d1 d2 : datetime) :
  valid d1 = true -> valid d2 = true ->
  strftime d1 = strftime d2 -> naive_minute d1 = naive_minute d2.
Proof.
  intros H1 H2 E.
  pose proof (reread_strftime d1 H1) as P1.
  pose proof (reread_strftime d2 H2) as P2.
  rewrite E in P1. congruence.
Qed.

(** ** Further properties of the fetch *)

Section FetchMore.

Variable parse_time : string -> option datetime.

(** What the loop leaves in [expected_dt] is the time of the last visit. *)
Lemma visit_loop_last (visits : list json) (last : json) :
  forall acc e0 arrivals e,
    visit_loop parse_time (visits ++ [last]) acc e0 = Returns (arrivals, e) ->
    exists a, normalize parse_time last = Returns (a, e).
Proof.
  induction visits as [| visit rest IH]; intros acc e0 arrivals e H;
    cbn [app visit_loop] in H; apply bind_Returns in H;
    destruct H as ([a e1] & Hn & H).
  - injection H as _ <-. exists a. exact Hn.
  - exact (IH _ _ _ _ H).
Qed.

Lemma update_try_200 (body : option json) (clk : clock)
    (self self' : Single.MTABusSensor) :
  Single.update_try parse_time (Responds 200 body) clk self = Returns self' ->
  exists data delivery,
    body = Some data
    /\ delivery_visits data = Returns delivery
    /\ match delivery with
       | None =>
           self' = Single.set_both self (JStr "No data")
                     [("Arrivals"%string, JArr [])]
       | Some visits =>
           exists arrivals e,
             visit_loop parse_time visits [] None = Returns (arrivals, e)
             /\ self'
                = match arrivals with
                  | first_arrival :: _ =>
                      Single.set_both self
                        (dict_get first_arrival "Estimated Arrival Time" JNull)
                        [("Arrivals"%string, JArr (map JObj arrivals));
                         ("ETA in minutes"%string,
                          JStr (Single.eta_in_minutes e clk))]
                  | [] =>
                      Single.set_both self (JStr "No arrivals")
                        [("Arrivals"%string, JArr [])]
                  end
       end.
Proof.
  unfold Single.update_try. cbn [Z.eqb Pos.eqb negb]. intros H.
  destruct body as [data |]; cbn [response_json mbind py_bind] in H;
    [| discriminate].
  destruct (delivery_visits data) as [[visits |] |] eqn:Hd;
    cbn [mbind py_bind] in H; [| | discriminate].
  - destruct (visit_loop parse_time visits [] None) as [[arrs e] |] eqn:Hl;
      cbn [mbind py_bind] in H; [| discriminate].
    exists data, (Some visits). split; [reflexivity |]. split; [exact Hd |].
    exists arrs, e. split; [exact Hl |].
    destruct arrs; injection H as <-; reflexivity.
  - injection H as <-.
    exists data, None. split; [reflexivity |]. split; [exact Hd | reflexivity].
Qed.

(** In [sensor.py] the ETA attribute is computed from the visit that comes
    last in the response, whichever visit that is: with the visits
    [visits ++ [last]], "ETA in minutes" is the ETA string of the expected
    time of [last]. *)
Theorem single_eta_from_last_visit
    (data : json) (visits : list json) (last : json) (clk : clock)
    (self self' : Single.MTABusSensor) :
  delivery_visits data = Returns (Some (visits ++ [last])) ->
  Single.update_try parse_time (Responds 200 (Some data)) clk self
  = Returns self' ->
  exists a e,
    normalize parse_time last = Returns (a, e)
    /\ assoc "ETA in minutes" (Single._attributes self')
       = Some (JStr (Single.eta_in_minutes e clk)).
Proof.
  intros Hd H. apply update_try_200 in H.
  destruct H as (data' & delivery & Eb & Hd' & H).
  injection Eb as <-. rewrite Hd in Hd'. injection Hd' as <-.
  destruct H as (arrivals & e & Hl & ->).
  destruct (visit_loop_last _ _ _ _ _ _ Hl) as (a & Hn).
  exists a, e. split; [exact Hn |].
  apply visit_loop_Returns in Hl. destruct Hl as (new & -> & Hall).
  apply Forall2_length in Hall. rewrite length_app in Hall. cbn in Hall.
  destruct new as [| a0 new]; [cbn in Hall; lia | reflexivity].
Qed.

(** After a decoded response the attributes of the single-target sensor
    are "Arrivals" alone when there is no arrival (the state then being
    "No data" or "No arrivals"), and "Arrivals" followed by "ETA in minutes"
    otherwise. *)
Theorem single_attributes_shape (body : option json) (clk : clock)
    (self self' : Single.MTABusSensor) :
  Single.update_try parse_time (Responds 200 body) clk self = Returns self' ->
  exists arrivals,
    assoc "Arrivals" (Single._attributes self')
    = Some (JArr (map JObj arrivals))
    /\ map fst (Single._attributes self')
       = match arrivals with
         | [] => ["Arrivals"%string]
         | _ :: _ => ["Arrivals"%string; "ETA in minutes"%string]
         end
    /\ (arrivals = [] ->
        Single._state self' = JStr "No data"
        \/ Single._state self' = JStr "No arrivals").
Proof.
  intros H. apply update_try_200 in H.
  destruct H as (data & [visits |] & _ & _ & H).
  - destruct H as (arrivals & e & _ & ->). exists arrivals.
    destruct arrivals; (split; [reflexivity |]); (split; [reflexivity |]).
    + right. reflexivity.
    + discriminate.
  - subst self'. exists []. split; [reflexivity |]. split; [reflexivity |].
    left. reflexivity.
Qed.

(** [update] never touches the configuration of the sensor, so the next
    request goes to the same URL. *)
Theorem single_update_keeps_config
    (net : string -> http_outcome) (clk : clock) (self : Single.MTABusSensor) :
  let self' := Single.update parse_time net clk self in
  Single._api_key self' = Single._api_key self
  /\ Single._operator_ref self' = Single._operator_ref self
  /\ Single._monitoring_ref self' = Single._monitoring_ref self
  /\ Single._line_ref self' = Single._line_ref self
  /\ Single.url self' = Single.url self.
Proof.
  cbv zeta. unfold Single.update.
  destruct (Single.update_try parse_time (net (Single.url self)) clk self)
    as [self' | e] eqn:H; [| repeat split].
  destruct (net (Single.url self)) as [e | status body];
    [discriminate H |].
  destruct (Z.eqb_spec status 200) as [-> | Hs].
  - apply update_try_200 in H.
    destruct H as (data & [visits |] & _ & _ & H).
    + destruct H as ([| a arrs] & e & _ & ->); repeat split.
    + subst self'. repeat split.
  - unfold Single.update_try in H.
    destruct (Z.eqb_spec status 200); [contradiction |].
    injection H as <-. repeat split.
Qed.

(** A delivery value that is truthy and is not a list (an object, a string,
    a number, true) cannot be decoded, and neither can a first delivery
    whose "MonitoredStopVisit" is present and is null, a number or a
    boolean: the component stores the empty list and the single-target
    sensor takes its error path. *)
Theorem malformed_delivery_is_an_error
    (data siri service delivery : json) :
  get_default data "Siri" empty_dict = Returns siri ->
  get_default siri "ServiceDelivery" empty_dict = Returns service ->
  get_default service "StopMonitoringDelivery" (JArr []) = Returns delivery ->
  truthy delivery = true ->
  match delivery with
  | JArr (JObj first :: _) =>
      match dict_get first "MonitoredStopVisit" (JArr []) with
      | JNull | JBool _ | JInt _ | JFloat _ => True
      | _ => False
      end
  | JArr _ => False
  | _ => True
  end ->
  (exists e, delivery_visits data = Raised e)
  /\ Multi.fetch parse_time (Responds 200 (Some data)) = []
  /\ forall net clk self,
       net (Single.url self) = Responds 200 (Some data) ->
       Single.update parse_time net clk self
       = Single.set_state self (JStr "Error").
Proof.
  intros H1 H2 H3 Ht Hshape.
  assert (exists e, delivery_visits data = Raised e) as (e & He).
  { unfold delivery_visits. rewrite H1. cbn [mbind py_bind].
    rewrite H2. cbn [mbind py_bind]. rewrite H3. cbn [mbind py_bind].
    rewrite Ht.
    destruct delivery as [| b | z | q | s | l | items];
      try (eexists; reflexivity).
    - destruct s; [discriminate Ht | eexists; reflexivity].
    - destruct l as [| [| | | | | | first] l]; try contradiction.
      cbn [item0 mbind py_bind get_default].
      destruct (dict_get first "MonitoredStopVisit" (JArr []));
        try contradiction; eexists; reflexivity. }
  split; [exists e; exact He |].
  assert (Multi.fetch_try parse_time (Responds 200 (Some data)) = Raised e)
    as Hf.
  { unfold Multi.fetch_try. cbn [Z.eqb Pos.eqb negb response_json mbind py_bind].
    rewrite He. reflexivity. }
  split.
  - unfold Multi.fetch. rewrite Hf. reflexivity.
  - intros net clk self Hnet. unfold Single.update. rewrite Hnet.
    rewrite (decode_raises_in_both parse_time _ e clk self Hf). reflexivity.
Qed.

End FetchMore.

(** ** Further properties of the cache *)

Section CacheMore.

Variable parse_time : string -> option datetime.
Variable net : Multi.network.

Lemma update_loop_app (self : Multi.MTAData) (l1 l2 : list Multi.departure) :
  forall sent acc,
    Multi.update_loop parse_time net self (l1 ++ l2) sent acc
    = Multi.update_loop parse_time net self l2
        (fst (Multi.update_loop parse_time net self l1 sent acc))
        (snd (Multi.update_loop parse_time net self l1 sent acc)).
Proof.
  induction l1 as [| dep rest IH]; intros sent acc;
    cbn [app Multi.update_loop].
  - reflexivity.
  - apply IH.
Qed.

Lemma update_loop_is_Some (self : Multi.MTAData)
    (deps : list Multi.departure) (n : string) :
  forall sent acc,
    is_Some (snd (Multi.update_loop parse_time net self deps sent acc) !! n)
    <-> n ∈ map Multi.name deps \/ is_Some (acc !! n).
Proof.
  induction deps as [| dep rest IH]; intros sent acc;
    cbn [map Multi.update_loop snd].
  - rewrite elem_of_nil. tauto.
  - rewrite IH, elem_of_cons.
    destruct (decide (Multi.name dep = n)) as [<- | Hne].
    + rewrite lookup_insert_eq. split; [intros _ | intros _; right; eauto].
      left. left. reflexivity.
    + rewrite lookup_insert_ne by exact Hne.
      split; [tauto |]. intros [[E | H] | H]; [congruence | tauto | tauto].
Qed.

(** After a run the mapping has an entry for every configured name and for
    no other; where several departures share a name, the entry is what the
    last of them fetched. *)
Theorem cache_holds_every_target (self : Multi.MTAData) (sent : list string) :
  let new_info := snd (Multi.update_unthrottled parse_time net sent self) in
  (forall n,
     is_Some (new_info !! n) <-> n ∈ map Multi.name (Multi._departures self))
  /\ (forall pre dep post,
        Multi._departures self = pre ++ dep :: post ->
        Multi.name dep ∉ map Multi.name post ->
        new_info !! Multi.name dep
        = Some (Multi.fetch parse_time
                  (net (length sent + length pre)%nat (Multi.url self dep)))).
Proof.
  cbv zeta. unfold Multi.update_unthrottled. split.
  - intros n. rewrite update_loop_is_Some. rewrite lookup_empty.
    split; [intros [H | [x H]]; [exact H | discriminate H] | tauto].
  - intros pre dep post -> Hlast.
    rewrite update_loop_app. cbn [Multi.update_loop].
    rewrite update_loop_other by exact Hlast.
    rewrite lookup_insert_eq, update_loop_sent, length_app, length_map.
    reflexivity.
Qed.

(** [setup_platform] of the component sends one request for each departure
    and makes one sensor for each; an [update] of any sensor less than 60
    seconds after that sends nothing and changes neither the mapping nor
    the time stamp, and each sensor reads what the initial run fetched for
    its departure. *)
Theorem setup_then_updates_are_throttled
    (t0 t0' : Z) (sent : list string) (api_key operator_ref : string)
    (departures : list Multi.departure) :
  let data := Multi.init api_key operator_ref departures in
  let r := Multi.setup_platform parse_time net t0 t0' sent api_key
             operator_ref departures in
  fst (fst r) = sent ++ map (Multi.url data) departures
  /\ map Multi._dep_config (snd r) = departures
  /\ (forall t t' clk sensor,
        t - t0' < seconds 60 ->
        fst (Multi.sensor_update parse_time net t t' clk (fst r) sensor)
        = fst r)
  /\ (NoDup (map Multi.name departures) ->
      forall (i : nat) dep,
        departures !! i = Some dep ->
        Multi.arrivals_of (snd (fst r)) (Multi.init_sensor dep)
        = Multi.fetch parse_time
            (net (length sent + i)%nat (Multi.url data dep))).
Proof.
  cbv zeta. unfold Multi.setup_platform. cbn [fst snd].
  rewrite (update_runs parse_time net
             (Multi.init api_key operator_ref departures) t0 t0' sent eq_refl).
  cbn [fst snd Multi.init Multi._departures].
  split; [reflexivity |]. split.
  - rewrite map_map. cbn [Multi.init_sensor Multi._dep_config].
    apply map_id.
  - split.
    + intros t t' clk sensor Ht. unfold Multi.sensor_update. cbn [fst].
      apply update_skips. cbn. unfold Multi.MIN_TIME_BETWEEN_UPDATES.
      apply Z.ltb_ge. lia.
    + intros Hnd i dep Hi. unfold Multi.arrivals_of.
      cbn [Multi.info Multi.set_info Multi._dep_config Multi.init_sensor].
      rewrite (update_loop_entry parse_time net _ departures Hnd i dep sent ∅ Hi).
      reflexivity.
Qed.

End CacheMore.

(** ** The further properties at sample inputs *)

Lemma component_eta_from_wall_minute_witness :
  exists first,
    normalized parse_iso (Sample.visit_at "2024-06-01T14:05:00-04:00") first
    /\ Multi.eta_str [first] Sample.two_pm_local = "in 5 minutes"%string.
Proof.
  eexists. split; [eexists; vm_compute; reflexivity |].
  exact (proj2 (component_eta_from_wall_minute parse_iso
                  (Sample.visit_at "2024-06-01T14:05:00-04:00") _
                  (Some Sample.five_past_two) eq_refl [] Sample.two_pm_local)
           Sample.five_past_two eq_refl eq_refl
           ltac:(vm_compute; discriminate)).
Defined.

Lemma component_state_never_unavailable_witness :
  let data :=
    snd (Multi.update parse_iso
           (fun _ _ => Responds 200
                         (Some (Sample.body_with [Sample.untimed_visit])))
           0 0 ([], Sample.data)) in
  Multi.state data (Multi.init_sensor Sample.main_st) = JStr "No arrivals".
Proof.
  intros data.
  destruct (component_state_never_unavailable parse_iso data
              (Multi.init_sensor Sample.main_st)) as (_ & H).
  refine (proj1 (H Sample.untimed_visit _ [] Sample.two_pm eq_refl _)).
  vm_compute. reflexivity.
Defined.

Lemma single_state_unavailable_witness :
  Single._state
    (Single.update parse_iso
       (fun _ => Responds 200
                   (Some (Sample.body_with [Sample.untimed_visit])))
       Sample.two_pm Sample.sensor)
  = Unavailable.
Proof.
  refine (single_state_unavailable parse_iso
            (Sample.body_with [Sample.untimed_visit]) Sample.untimed_visit []
            _ Sample.two_pm Sample.sensor _ eq_refl eq_refl _).
  vm_compute. reflexivity.
Defined.

Lemma reparse_costs_at_most_a_minute_witness :
  let dt := mkDT 2024 6 1 14 0 59 0 (Some (seconds (-14400))) in
  whole_minutes (minus_now dt Sample.two_pm_local) - 1
  <= whole_minutes (minus_now (naive_minute dt) Sample.two_pm_local)
  <= whole_minutes (minus_now dt Sample.two_pm_local).
Proof.
  intros dt.
  apply (reparse_costs_at_most_a_minute dt Sample.two_pm_local);
    [reflexivity | right; reflexivity | vm_compute; reflexivity].
Defined.

Lemma strftime_same_minute_witness :
  naive_minute (mkDT 2024 6 1 14 5 59 0 None)
  = naive_minute Sample.five_past_two.
Proof.
  apply strftime_same_minute; reflexivity.
Defined.

Lemma single_eta_from_last_visit_witness :
  exists a e,
    normalize parse_iso (Sample.visit_at "2024-06-01T14:10:00-04:00")
    = Returns (a, e)
    /\ assoc "ETA in minutes"
         (Single._attributes
            (Single.update parse_iso
               (fun _ => Responds 200 (Some Sample.two_visits))
               Sample.two_pm Sample.sensor))
       = Some (JStr (Single.eta_in_minutes e Sample.two_pm)).
Proof.
  refine (single_eta_from_last_visit parse_iso Sample.two_visits
            [Sample.visit_at "2024-06-01T14:03:00-04:00"]
            (Sample.visit_at "2024-06-01T14:10:00-04:00")
            Sample.two_pm Sample.sensor _ eq_refl _).
  vm_compute. reflexivity.
Defined.

Lemma single_attributes_shape_witness :
  exists arrivals,
    assoc "Arrivals"
      (Single._attributes
         (Single.update parse_iso
            (fun _ => Responds 200 (Some (Sample.body_with [])))
            Sample.two_pm Sample.stale))
    = Some (JArr (map JObj arrivals)).
Proof.
  destruct (single_attributes_shape parse_iso (Some (Sample.body_with []))
              Sample.two_pm Sample.stale
              (Single.update parse_iso
                 (fun _ => Responds 200 (Some (Sample.body_with [])))
                 Sample.two_pm Sample.stale) eq_refl)
    as (arrivals & H & _).
  exists arrivals. exact H.
Defined.

Lemma malformed_delivery_is_an_error_witness :
  Multi.fetch parse_iso
    (Responds 200
       (Some (Sample.body_of
                (JObj [("MonitoredStopVisit"%string, JArr [])]))))
  = [].
Proof.
  refine (proj1 (proj2 (malformed_delivery_is_an_error parse_iso
                          (Sample.body_of
                             (JObj [("MonitoredStopVisit"%string, JArr [])]))
                          _ _ _ eq_refl eq_refl eq_refl eq_refl I))).
Defined.

Lemma cache_holds_every_target_witness :
  snd (Multi.update_unthrottled parse_iso Sample.flaky [] Sample.twice)
    !! "Main St"%string
  = Some (Multi.fetch parse_iso (Responds 200 (Some Sample.two_visits))).
Proof.
  destruct (cache_holds_every_target parse_iso Sample.flaky Sample.twice [])
    as (_ & H).
  refine (H [Sample.main_st] (Multi.mkDeparture "Main St" "502186" None) []
            eq_refl _).
  apply not_elem_of_nil.
Defined.

Lemma setup_then_updates_are_throttled_witness :
  let r := Multi.setup_platform parse_iso Sample.flaky 0 (seconds 2) []
             "k" "MTA" [Sample.main_st; Sample.union_st] in
  fst (Multi.sensor_update parse_iso Sample.flaky (seconds 3) (seconds 4)
         Sample.two_pm (fst r) (Multi.init_sensor Sample.union_st))
  = fst r.
Proof.
  intros r.
  destruct (setup_then_updates_are_throttled parse_iso Sample.flaky
              0 (seconds 2) [] "k" "MTA" [Sample.main_st; Sample.union_st])
    as (_ & _ & H & _).
  apply H. reflexivity.
Defined.

(** ** Decode errors *)

Section DecodeFacts.

Variable parse_time : string -> option datetime.

Lemma normalize_Returns_well_shaped (visit : json) (a : arrival)
    (e : option datetime) :
  normalize parse_time visit = Returns (a, e) -> well_shaped visit = true.
Proof.
  intros H. apply normalize_Returns in H.
  destruct H as (items & j & c & x & d & p & -> & Ej & Ec & Ex & Ed & Ep & _).
  destruct (dict_get_is_record _ _ _ Ej) as (Rj & Fj).
  destruct (dict_get_is_record _ _ _ Ec) as (Rc & Fc).
  destruct (dict_get_is_record _ _ _ Ex) as (Rx & Fx).
  destruct (dict_get_is_record _ _ _ Ed) as (Rd & _).
  destruct (dict_get_is_record _ _ _ Ep) as (Rp & _).
  unfold well_shaped, capacities_of, distances_of, extensions_of, call_of,
    journey_of.
  cbn [field]. rewrite !Fj, !Fc, !Fx, Rj, Rc, Rx, Rd, Rp. reflexivity.
Qed.

(** The loop raises exactly when one of the visits is not a visit record,
    whatever the parser of the times. *)
Lemma visit_loop_raises (visits : list json) :
  forall acc e0,
    (exists e, visit_loop parse_time visits acc e0 = Raised e)
    <-> forallb well_shaped visits = false.
Proof.
  induction visits as [| visit rest IH]; intros acc e0;
    cbn [visit_loop forallb].
  - split; [intros (e & H); discriminate H | discriminate].
  - destruct (well_shaped visit) eqn:Hw; cbn [andb].
    + destruct (normalize_well_shaped parse_time visit Hw)
        as (j & c & d & p & _ & _ & ->).
      cbn [mbind py_bind]. apply IH.
    + split; [reflexivity |]. intros _.
      destruct (normalize parse_time visit) as [[a e1] | e1] eqn:Hn.
      * apply normalize_Returns_well_shaped in Hn. congruence.
      * exists e1. reflexivity.
Qed.

Lemma fetch_try_raises (body : option json) :
  (exists e, Multi.fetch_try parse_time (Responds 200 body) = Raised e)
  <-> decode_fails body = true.
Proof.
  unfold Multi.fetch_try, decode_fails. cbn [Z.eqb Pos.eqb negb].
  destruct body as [data |]; cbn [response_json mbind py_bind];
    [| split; [reflexivity | intros _; eexists; reflexivity]].
  destruct (delivery_visits data) as [[visits |] | e0]; cbn [mbind py_bind].
  - rewrite negb_true_iff, <- (visit_loop_raises visits [] None).
    destruct (visit_loop parse_time visits [] None) as [[arrs e1] | e1];
      cbn [mbind py_bind]; split; intros (e & H);
      try discriminate H; eexists; reflexivity.
  - split; [intros (e & H); discriminate H | discriminate].
  - split; [reflexivity | intros _; eexists; reflexivity].
Qed.

Lemma update_try_raises (body : option json) (clk : clock)
    (self : Single.MTABusSensor) :
  (exists e,
     Single.update_try parse_time (Responds 200 body) clk self = Raised e)
  <-> decode_fails body = true.
Proof.
  unfold Single.update_try, decode_fails. cbn [Z.eqb Pos.eqb negb].
  destruct body as [data |]; cbn [response_json mbind py_bind];
    [| split; [reflexivity | intros _; eexists; reflexivity]].
  destruct (delivery_visits data) as [[visits |] | e0]; cbn [mbind py_bind].
  - rewrite negb_true_iff, <- (visit_loop_raises visits [] None).
    destruct (visit_loop parse_time visits [] None) as [[arrs e1] | e1];
      cbn [mbind py_bind]; split; intros (e & H);
      try (eexists; reflexivity).
    + destruct arrs; discriminate H.
    + discriminate H.
  - split; [intros (e & H); discriminate H | discriminate].
  - split; [reflexivity | intros _; eexists; reflexivity].
Qed.

End DecodeFacts.

(** C7, amended: a decode error (a body that is not JSON, or a response
    shape on which the decoding raises) is caught in both sensors.  In the
    component the target is left the empty list and its sensor reads "No
    arrivals", as for a request that raises or a status that is not 200; in
    the single-target sensor the state becomes "Error" and the attributes
    stay as they were, as for a request that raises. *)
Theorem decode_error_is_caught
    (parse_single parse_multi : string -> option datetime)
    (body : option json) :
  decode_fails body = true ->
  (forall net t_call t_done clk sent data sensor (i : nat),
     Multi.throttle_open (Multi._throttle data) t_call = true ->
     NoDup (map Multi.name (Multi._departures data)) ->
     Multi._departures data !! i = Some (Multi._dep_config sensor) ->
     net (length sent + i)%nat (Multi.url data (Multi._dep_config sensor))
     = Responds 200 body ->
     let r := Multi.sensor_update parse_multi net t_call t_done clk
                (sent, data) sensor in
     Multi.info (snd (fst r)) !! Multi.name (Multi._dep_config sensor)
     = Some []
     /\ Multi._state (snd r) = JStr "No arrivals")
  /\ Multi.fetch parse_multi (Responds 200 body)
     = Multi.fetch parse_multi (Raises RequestException)
  /\ Multi.fetch parse_multi (Responds 200 body)
     = Multi.fetch parse_multi (Responds 500 body)
  /\ (forall net clk self,
        net (Single.url self) = Responds 200 body ->
        Single._state (Single.update parse_single net clk self) = JStr "Error"
        /\ Single._attributes (Single.update parse_single net clk self)
           = Single._attributes self
        /\ Single.update parse_single net clk self
           = Single.update parse_single (fun _ => Raises RequestException)
               clk self)
  /\ decode_fails None = true
  /\ (forall data,
        match data with JObj _ => False | _ => True end ->
        decode_fails (Some data) = true).
Proof.
  intros Hfail.
  assert (Multi.fetch parse_multi (Responds 200 body) = []) as Hfetch.
  { apply (fetch_try_raises parse_multi) in Hfail. destruct Hfail as (e & H).
    unfold Multi.fetch. rewrite H. reflexivity. }
  split; [| split; [| split; [| split; [| split]]]].
  - intros net t_call t_done clk sent data sensor i Hopen Hnd Hi Hnet.
    cbv zeta. unfold Multi.sensor_update.
    rewrite (update_runs parse_multi net data t_call t_done sent Hopen).
    cbn [fst snd Multi.info Multi.set_info Multi._state].
    rewrite (update_loop_entry parse_multi net data _ Hnd i _ sent ∅ Hi).
    rewrite Hnet, Hfetch. split; [reflexivity |].
    unfold Multi.state, Multi.arrivals_of. cbn [Multi.info Multi.set_info].
    rewrite (update_loop_entry parse_multi net data _ Hnd i _ sent ∅ Hi).
    rewrite Hnet, Hfetch. reflexivity.
  - rewrite Hfetch. reflexivity.
  - rewrite Hfetch. reflexivity.
  - intros net clk self Hnet.
    apply (update_try_raises parse_single body clk self) in Hfail.
    destruct Hfail as (e & H).
    unfold Single.update. rewrite Hnet, H. repeat split.
  - reflexivity.
  - intros data Hd. destruct data; try contradiction; reflexivity.
Qed.

Lemma decode_error_is_caught_witness :
  Multi._state
    (snd (Multi.sensor_update parse_iso (fun _ _ => Responds 200 None)
            0 0 Sample.two_pm ([], Sample.data)
            (Multi.init_sensor Sample.main_st)))
  = JStr "No arrivals"
  /\ Single._state
       (Single.update parse_iso (fun _ => Responds 200 None) Sample.two_pm
          Sample.stale)
     = JStr "Error".
Proof.
  destruct (decode_error_is_caught parse_iso parse_iso None eq_refl)
    as (Hmulti & _ & _ & Hsingle & _).
  split.
  - apply (Hmulti (fun _ _ => Responds 200 None) 0 0 Sample.two_pm []
             Sample.data (Multi.init_sensor Sample.main_st) 0%nat).
    + reflexivity.
    + apply (bool_decide_unpack _). vm_compute. exact I.
    + reflexivity.
    + reflexivity.
  - apply (Hsingle (fun _ => Responds 200 None) Sample.two_pm Sample.stale).
    reflexivity.
Defined.

(** ** The two sensors side by side *)

Section SideBySide.

Variable parse_single parse_multi : string -> option datetime.

Lemma normalized_same_but_times (visit : json) (a b : arrival) :
  normalized parse_multi visit a -> normalized parse_single visit b ->
  same_but_times a b.
Proof.
  intros (e1 & H1) (e2 & H2).
  apply normalize_Returns in H1, H2.
  destruct H1 as (items & j & c & x & d & p & -> & Ej & Ec & Ex & Ed & Ep
                  & _ & ->).
  destruct H2 as (items' & j' & c' & x' & d' & p' & E & Ej' & Ec' & Ex' & Ed'
                  & Ep' & _ & ->).
  injection E as <-.
  rewrite Ej in Ej'. injection Ej' as <-.
  rewrite Ec in Ec'. injection Ec' as <-.
  rewrite Ex in Ex'. injection Ex' as <-.
  rewrite Ed in Ed'. injection Ed' as <-.
  rewrite Ep in Ep'. injection Ep' as <-.
  split; [reflexivity |]. intros k Ha He. cbn [assoc].
  repeat match goal with
         | |- context [String.eqb k ?s] =>
             destruct (String.eqb_spec k s);
             [try reflexivity; contradiction |]
         end.
  reflexivity.
Qed.

Lemma Forall2_same_but_times (visits : list json) :
  forall arrivals arrivals',
    Forall2 (normalized parse_multi) visits arrivals ->
    Forall2 (normalized parse_single) visits arrivals' ->
    Forall2 same_but_times arrivals arrivals'.
Proof.
  induction visits as [| visit rest IH]; intros arrivals arrivals' H1 H2;
    inversion H1; inversion H2; subst; constructor.
  - eapply normalized_same_but_times; eassumption.
  - apply IH; assumption.
Qed.

(** The two sensors decode a 200 response alike, up to the parser of the
    times ([datetime.fromisoformat] in one, [dateutil] in the other): one
    returns exactly when the other does, and then with as many arrivals, in
    the same order, with the same keys, and with the same values under every
    key but the two formatted times. *)
Theorem variants_decode_alike (body : option json) (clk : clock)
    (self : Single.MTABusSensor) :
  ((exists arrivals,
      Multi.fetch_try parse_multi (Responds 200 body) = Returns arrivals)
   <-> (exists self',
          Single.update_try parse_single (Responds 200 body) clk self
          = Returns self'))
  /\ (forall arrivals self',
        Multi.fetch_try parse_multi (Responds 200 body) = Returns arrivals ->
        Single.update_try parse_single (Responds 200 body) clk self
        = Returns self' ->
        exists arrivals',
          assoc "Arrivals" (Single._attributes self')
          = Some (JArr (map JObj arrivals'))
          /\ Forall2 same_but_times arrivals arrivals').
Proof.
  split.
  - pose proof (fetch_try_raises parse_multi body) as Hm.
    pose proof (update_try_raises parse_single body clk self) as Hs.
    destruct (decode_fails body).
    + destruct (proj2 Hm eq_refl) as (e1 & ->).
      destruct (proj2 Hs eq_refl) as (e2 & ->).
      split; intros (y & H); discriminate H.
    + split; intros _.
      * destruct (Single.update_try parse_single (Responds 200 body) clk self)
          as [self' | e]; [eauto |].
        assert (false = true) as A by (apply Hs; eauto). discriminate A.
      * destruct (Multi.fetch_try parse_multi (Responds 200 body))
          as [arrivals | e]; [eauto |].
        assert (false = true) as A by (apply Hm; eauto). discriminate A.
  - intros arrivals self' Hm Hs.
    apply update_try_200 in Hs.
    destruct Hs as (data & delivery & -> & Hd & Hs).
    unfold Multi.fetch_try in Hm.
    cbn [Z.eqb Pos.eqb negb response_json mbind py_bind] in Hm.
    rewrite Hd in Hm. cbn [mbind py_bind] in Hm.
    destruct delivery as [visits |].
    + destruct Hs as (arrivals' & e & Hl & ->).
      apply bind_Returns in Hm. destruct Hm as ([arrs e1] & Hl1 & Hm).
      injection Hm as <-.
      apply visit_loop_Returns in Hl, Hl1.
      destruct Hl as (new & -> & Hall). destruct Hl1 as (new1 & -> & Hall1).
      exists new. cbn [app].
      split; [destruct new; reflexivity |].
      exact (Forall2_same_but_times visits new1 new Hall1 Hall).
    + subst self'. injection Hm as <-. exists [].
      split; [reflexivity | constructor].
Qed.

End SideBySide.

Lemma variants_decode_alike_witness :
  exists self',
    Single.update_try parse_iso (Responds 200 (Some Sample.two_visits))
      Sample.two_pm Sample.sensor = Returns self'.
Proof.
  apply (proj1 (proj1 (variants_decode_alike parse_iso parse_iso
                         (Some Sample.two_visits) Sample.two_pm
                         Sample.sensor))).
  eexists. vm_compute. reflexivity.
Defined.

Section DistanceMore.

Variable parse_time : string -> option datetime.

(** The "Distance" of an arrival is never empty: it is the presentable
    distance of the visit when that is truthy, and "Unavailable" when it is
    missing, null, zero or the empty string. *)
Theorem distance_never_empty (visit : json) (a : arrival) :
  normalized parse_time visit a ->
  let raw := presentable_distance visit in
  assoc "Distance" a = Some (if truthy raw then raw else Unavailable)
  /\ truthy (if truthy raw then raw else Unavailable) = true
  /\ (truthy raw = false -> assoc "Distance" a = Some Unavailable).
Proof.
  intros (e & H). cbv zeta. apply normalize_Returns in H.
  destruct H as (items & j & c & x & d & p & -> & Ej & Ec & Ex & Ed & _ & _
                 & ->).
  destruct (dict_get_is_record _ _ _ Ej) as (_ & Fj).
  destruct (dict_get_is_record _ _ _ Ec) as (_ & Fc).
  destruct (dict_get_is_record _ _ _ Ex) as (_ & Fx).
  assert (presentable_distance (JObj items)
          = dict_get d "PresentableDistance" JNull) as ->.
  { unfold presentable_distance, distances_of, extensions_of, call_of,
      journey_of.
    cbn [field]. rewrite Fj, Fc, Fx. unfold dict_get in Ed.
    destruct (assoc "Distances" x) as [v |].
    - subst v. reflexivity.
    - injection Ed as <-. reflexivity. }
  split; [reflexivity |]. split.
  - destruct (truthy (dict_get d "PresentableDistance" JNull)) eqn:E;
      [exact E | reflexivity].
  - intros E. cbn [assoc String.eqb Ascii.eqb Bool.eqb]. rewrite E.
    reflexivity.
Qed.

End DistanceMore.

Lemma distance_never_empty_witness :
  exists a,
    normalized parse_iso
      (Sample.visit_of
         (JObj [("Extensions",
                 JObj [("Distances",
                        JObj [("PresentableDistance",
                               JStr EmptyString)])])]%string)) a
    /\ assoc "Distance" a = Some Unavailable.
Proof.
  eexists. split; [eexists; vm_compute; reflexivity |].
  refine (proj2 (proj2 (distance_never_empty parse_iso
            (Sample.visit_of
               (JObj [("Extensions",
                       JObj [("Distances",
                              JObj [("PresentableDistance",
                                     JStr EmptyString)])])]%string))
            _ _)) eq_refl).
  eexists. vm_compute. reflexivity.
Defined.

(** ** The ETA against the parsed instant *)




(** C6, at an expected time of 2024-06-01T14:05:00-04:00 read at 14:00 of
    the same zone on a host whose local time is UTC: the component reads
    the formatted string back as the naive 14:05 and sets it against the
    local clock of the host, 240 minutes from the instant that was parsed,
    so its ETA is "Departed" where [sensor.py], which keeps the offset,
    says "in 5 minutes". *)
Theorem component_eta_drops_utc_offset :
  let visit := Sample.visit_at "2024-06-01T14:05:00-04:00" in
  let out := Responds 200 (Some (Sample.body_with [visit])) in
  let r := Multi.sensor_update parse_iso (fun _ _ => out) 0 0 Sample.two_pm
             ([], Sample.data) (Multi.init_sensor Sample.main_st) in
  let single := Single.update parse_iso (fun _ => out) Sample.two_pm
                  Sample.sensor in
  parse_iso "2024-06-01T14:05:00-04:00" = Some Sample.five_past_two
  /\ strptime (strftime Sample.five_past_two)
     = Some (naive_minute Sample.five_past_two)
  /\ minute_instant (local_offset Sample.two_pm) Sample.five_past_two
     - minute_instant (local_offset Sample.two_pm)
         (naive_minute Sample.five_past_two) = 240
  /\ assoc "ETA in minutes" (Multi._attributes (snd r))
     = Some (JStr "Departed")
  /\ assoc "ETA in minutes" (Single._attributes single)
     = Some (JStr "in 5 minutes").
Proof. vm_compute. repeat split. Qed.

(** The minute count of the code, made in binary64, is the floor of the
    exact quotient as long as the difference is less than 2^34 seconds;
    56 seconds beyond that bound it is already one more. *)
Theorem minute_count_is_exact_floor (delta : timedelta) :
  Z.abs delta < seconds (2 ^ 34) ->
  whole_minutes delta = delta / seconds 60
  /\ seconds 60 * whole_minutes delta <= delta
     < seconds 60 * (whole_minutes delta + 1)
  /\ whole_minutes (seconds (2 ^ 34 + 56) - 1)
     = (seconds (2 ^ 34 + 56) - 1) / seconds 60 + 1.
Proof.
  intros H. rewrite (whole_minutes_exact delta H).
  assert (0 < seconds 60) as Hpos by reflexivity.
  pose proof (Z.mul_div_le delta (seconds 60) Hpos).
  pose proof (Z.mul_succ_div_gt delta (seconds 60) Hpos).
  split; [reflexivity |]. split; [lia |]. vm_compute. reflexivity.
Qed.

Lemma minute_count_is_exact_floor_witness :
  whole_minutes (seconds 89) = seconds 89 / seconds 60.
Proof.
  apply (minute_count_is_exact_floor (seconds 89)). vm_compute. reflexivity.
Defined.
